(** * bitbucket-repo-cleaner: a shallow embedding and its verified properties

    The program is a menu-driven Python script over four kinds of state:
    its module globals, the local file system, the operator's terminal and
    the remote Bitbucket service reached through a client library.  The
    embedding threads all of them through one [World] record in a
    state-and-exception monad; every Python function of the script becomes
    one monadic definition of the same name, statement for statement. *)

From Stdlib Require Import String Ascii.
From stdpp Require Import base option list gmap.

Local Open Scope N_scope.

(** ** Python strings

    A Python [str] is a sequence of Unicode code points.  Literals of the
    script are written [py "..."]. *)

Abbreviation pystr := (list N).

Definition py (s : string) : pystr :=
  (λ a, N_of_ascii a) <$> list_ascii_of_string s.

Definition LF : N := 10.
Definition CR : N := 13.

(** [str.isspace] of one code point: the interpreter's table of Unicode
    white space (bidirectional types WS, B, S and category Zs). *)
Definition isspace (c : N) : bool :=
  ((9 <=? c) && (c <=? 13)) || ((28 <=? c) && (c <=? 32))
  || (c =? 133) || (c =? 160) || (c =? 5760)
  || ((8192 <=? c) && (c <=? 8202))
  || (c =? 8232) || (c =? 8233) || (c =? 8239) || (c =? 8287)
  || (c =? 12288).

Fixpoint lstrip (s : pystr) : pystr :=
  match s with
  | c :: s' => if isspace c then lstrip s' else s
  | [] => []
  end.

Definition rstrip (s : pystr) : pystr := reverse (lstrip (reverse s)).

(** [s.strip()] *)
Definition strip (s : pystr) : pystr := rstrip (lstrip s).

(** Iterating over a file opened in text mode with the default
    [newline=None]: a line ends at LF, CR or CR LF, each handed over as a
    single LF; a last line without terminator is handed over as it is.
    [cur] holds the current line backwards. *)
Fixpoint readlines_from (cur s : pystr) : list pystr :=
  match s with
  | [] => match cur with [] => [] | _ => [reverse cur] end
  | c :: s' =>
      if c =? LF then reverse (LF :: cur) :: readlines_from [] s'
      else if c =? CR then
        match s' with
        | d :: s'' =>
            if d =? LF then reverse (LF :: cur) :: readlines_from [] s''
            else reverse (LF :: cur) :: readlines_from [] s'
        | [] => [reverse (LF :: cur)]
        end
      else readlines_from (c :: cur) s'
  end.

Definition readlines (text : pystr) : list pystr := readlines_from [] text.

(** ** Python values

    What the client library and the YAML loader hand back: JSON-like data.
    A [dict] keeps its insertion order, so it is an association list; a
    lookup takes the first binding of the key. *)

#[warnings="-register-all"]
Inductive pyval : Type :=
  | VNone
  | VBool (b : bool)
  | VInt (n : Z)
  | VStr (s : pystr)
  | VList (xs : list pyval)
  | VDict (kvs : list (pystr * pyval)).

(** ** Exceptions

    Every exception of the model is an instance of Python's [Exception];
    an asynchronous [KeyboardInterrupt] is outside the model. *)

Inductive exn_class : Type :=
  | FileNotFoundError
  | IsADirectoryError
  | PermissionError
  | UnicodeDecodeError
  | TypeError
  | KeyError
  | AttributeError
  | EOFError
  | LibraryError.   (* raised inside the client library or the YAML loader *)

Record exn : Type := Exn { exn_class_of : exn_class; exn_detail : pystr }.

Inductive outcome (A : Type) : Type :=
  | Ret (a : A)
  | Raise (e : exn).
Arguments Ret {A} a.
Arguments Raise {A} e.

Global Instance exn_class_eq_dec : EqDecision exn_class.
Proof. solve_decision. Defined.

(** Truth value of an object, as [if x:] takes it. *)
Definition py_bool (v : pyval) : bool :=
  match v with
  | VNone => false
  | VBool b => b
  | VInt n => negb (n =? 0)%Z
  | VStr s => match s with [] => false | _ => true end
  | VList xs => match xs with [] => false | _ => true end
  | VDict kvs => match kvs with [] => false | _ => true end
  end.

Fixpoint assoc (key : pystr) (kvs : list (pystr * pyval)) : option pyval :=
  match kvs with
  | [] => None
  | (k, v) :: rest => if decide (k = key) then Some v else assoc key rest
  end.

(** [v[key]] for a string key. *)
Definition py_getitem (v : pyval) (key : pystr) : outcome pyval :=
  match v with
  | VDict kvs =>
      match assoc key kvs with
      | Some x => Ret x
      | None => Raise (Exn KeyError key)
      end
  | VStr _ => Raise (Exn TypeError (py "string indices must be integers"))
  | VList _ => Raise (Exn TypeError (py "list indices must be integers or slices, not str"))
  | _ => Raise (Exn TypeError (py "object is not subscriptable"))
  end.

(** The items a [for] loop over [v] visits. *)
Definition py_iter (v : pyval) : outcome (list pyval) :=
  match v with
  | VList xs => Ret xs
  | VDict kvs => Ret ((λ kv, VStr kv.1) <$> kvs)
  | VStr s => Ret ((λ c, VStr [c]) <$> s)
  | _ => Raise (Exn TypeError (py "object is not iterable"))
  end.

(** [v in l] for a list [l] of strings: only a string equals a string. *)
Definition py_in (v : pyval) (l : list pystr) : bool :=
  match v with
  | VStr s => bool_decide (s ∈ l)
  | _ => false
  end.

(** [v + s] for a string [s]. *)
Definition py_add_str (v : pyval) (s : pystr) : outcome pystr :=
  match v with
  | VStr t => Ret (t ++ s)
  | _ => Raise (Exn TypeError (py "unsupported operand type(s) for +"))
  end.

(** A global that is [None] or a string, inside an f-string. *)
Definition fmt (o : option pystr) : pystr :=
  match o with
  | None => py "None"
  | Some s => s
  end.

Definition opt_val (o : option pystr) : pyval :=
  match o with
  | None => VNone
  | Some s => VStr s
  end.

(** ** What the program prints

    A printed line is kept as its pieces: the literal text, and the objects
    whose rendering is the interpreter's ([str] of a value, of an exception,
    of the parsed command line). *)

Inductive piece : Type :=
  | Lit (s : pystr)
  | Show (v : pyval)
  | ShowExn (e : exn)
  | ShowArgs (filename : option pystr).

Inductive output : Type :=
  | Print (line : list piece)    (* print(...) *)
  | Prompt (s : pystr).          (* the prompt input(...) writes *)

(** ** The file system

    A finite map from path strings to what lies there.  A path outside the
    map names nothing: opening it for reading is the operating system's
    "no such file", opening it for writing creates it. *)

Inductive fnode : Type :=
  | Regular (text : pystr)   (* a file whose bytes decode to [text] *)
  | Garbled                  (* a file whose bytes are not valid UTF-8 *)
  | Directory
  | Denied.                  (* a path the process may not open *)

(** ** The remote service and the libraries

    The Bitbucket client and the YAML loader are collaborators the script
    does not implement.  The client answers a request from the state of
    the remote service, which the request may change. *)

Record client : Type := Bitbucket
  { url : pyval; username : pyval; password : pyval; verify_ssl : bool }.

Inductive api_call : Type :=
  | Call_project (key : option pystr)
  | Call_get_repo (project_key repository_slug : option pystr)
  | Call_get_branches (project_key repository_slug : option pystr)
      (filter : pystr) (limit : Z) (details boost_matches : bool)
  | Call_delete_branch (project_key repository_slug : option pystr)
      (name : pyval) (end_point : pyval).

Class Collaborators (R : Type) : Type :=
  { respond : client → api_call → R → outcome pyval * R;
    yaml_safe_load : pystr → outcome pyval }.

Record date : Type := Date { year : nat; month : nat; day : nat }.

Definition digit (n : nat) : N := 48 + N.of_nat (n mod 10).

(** [strftime("%Y-%m-%d")] *)
Definition strftime_ymd (d : date) : pystr :=
  [digit (year d / 1000); digit (year d / 100); digit (year d / 10); digit (year d)]
  ++ py "-" ++ [digit (month d / 10); digit (month d)]
  ++ py "-" ++ [digit (day d / 10); digit (day d)].

Definition CONFIGURATION_FILE : pystr := py "configuration.yml".

Section Program.

Context {R : Type} `{!Collaborators R}.

(** ** The world *)

Record World : Type := mkWorld
  { PROJECT_KEY : option pystr;
    REPOSITORY_SLUG : option pystr;
    FILENAME : option pystr;
    BITBUCKET_WRAPPER : option client;
    files : gmap pystr fnode;
    today : date;                 (* what datetime.now() reads *)
    stdin : list pystr;           (* the lines the operator will type *)
    stdout : list output;         (* what was printed, oldest first *)
    remote : R;                   (* the service behind the client *)
    requests : list api_call }.   (* the requests sent, oldest first *)

Definition set_PROJECT_KEY (v : option pystr) (w : World) : World :=
  mkWorld v (REPOSITORY_SLUG w) (FILENAME w) (BITBUCKET_WRAPPER w) (files w)
    (today w) (stdin w) (stdout w) (remote w) (requests w).
Definition set_REPOSITORY_SLUG (v : option pystr) (w : World) : World :=
  mkWorld (PROJECT_KEY w) v (FILENAME w) (BITBUCKET_WRAPPER w) (files w)
    (today w) (stdin w) (stdout w) (remote w) (requests w).
Definition set_FILENAME (v : option pystr) (w : World) : World :=
  mkWorld (PROJECT_KEY w) (REPOSITORY_SLUG w) v (BITBUCKET_WRAPPER w) (files w)
    (today w) (stdin w) (stdout w) (remote w) (requests w).
Definition set_BITBUCKET_WRAPPER (v : option client) (w : World) : World :=
  mkWorld (PROJECT_KEY w) (REPOSITORY_SLUG w) (FILENAME w) v (files w)
    (today w) (stdin w) (stdout w) (remote w) (requests w).
Definition set_files (v : gmap pystr fnode) (w : World) : World :=
  mkWorld (PROJECT_KEY w) (REPOSITORY_SLUG w) (FILENAME w) (BITBUCKET_WRAPPER w) v
    (today w) (stdin w) (stdout w) (remote w) (requests w).
Definition set_stdin (v : list pystr) (w : World) : World :=
  mkWorld (PROJECT_KEY w) (REPOSITORY_SLUG w) (FILENAME w) (BITBUCKET_WRAPPER w) (files w)
    (today w) v (stdout w) (remote w) (requests w).
Definition set_stdout (v : list output) (w : World) : World :=
  mkWorld (PROJECT_KEY w) (REPOSITORY_SLUG w) (FILENAME w) (BITBUCKET_WRAPPER w) (files w)
    (today w) (stdin w) v (remote w) (requests w).
Definition sent (c : api_call) (r : R) (w : World) : World :=
  mkWorld (PROJECT_KEY w) (REPOSITORY_SLUG w) (FILENAME w) (BITBUCKET_WRAPPER w) (files w)
    (today w) (stdin w) (stdout w) r (requests w ++ [c]).

(** ** The monad: state and exceptions *)

Definition M (A : Type) : Type := World → outcome A * World.

Definition raise {A} (e : exn) : M A := λ w, (Raise e, w).

Definition bind {A B} (m : M A) (f : A → M B) : M B :=
  λ w, match m w with
       | (Ret a, w') => f a w'
       | (Raise e, w') => (Raise e, w')
       end.

Global Instance M_ret : MRet M := λ A a w, (Ret a, w).
Global Instance M_bind : MBind M := λ A B f m, bind m f.

Definition ret {A} (a : A) : M A := mret a.

Definition lift {A} (o : outcome A) : M A := λ w, (o, w).

Definition gets {A} (f : World → A) : M A := λ w, (Ret (f w), w).

Definition modify (f : World → World) : M unit := λ w, (Ret tt, f w).

(** [try: m  except Exception as e: h e] *)
Definition try_except {A} (m : M A) (h : exn → M A) : M A :=
  λ w, match m w with
       | (Ret a, w') => (Ret a, w')
       | (Raise e, w') => h e w'
       end.

Definition for_each {A} (xs : list A) (body : A → M unit) : M unit :=
  (fix go (l : list A) : M unit :=
     match l with
     | [] => ret tt
     | x :: l' => body x;; go l'
     end) xs.

(** ** Built-ins with an effect *)

Definition print (line : list piece) : M unit :=
  modify (λ w, set_stdout (stdout w ++ [Print line]) w).

(** [input(prompt)]: the prompt is written, then a line is read; at the end
    of the input the interpreter raises [EOFError]. *)
Definition input (prompt : pystr) : M pystr :=
  λ w, let w' := set_stdout (stdout w ++ [Prompt prompt]) w in
       match stdin w with
       | [] => (Raise (Exn EOFError (py "EOF when reading a line")), w')
       | l :: rest => (Ret l, set_stdin rest w')
       end.

(** [open(path, "r")] followed by reading the file to its end. *)
Definition read_text (path : option pystr) : M pystr :=
  λ w, match path with
       | None => (Raise (Exn TypeError
                   (py "expected str, bytes or os.PathLike object, not NoneType")), w)
       | Some p =>
           match files w !! p with
           | None => (Raise (Exn FileNotFoundError p), w)
           | Some (Regular text) => (Ret text, w)
           | Some Garbled => (Raise (Exn UnicodeDecodeError p), w)
           | Some Directory => (Raise (Exn IsADirectoryError p), w)
           | Some Denied => (Raise (Exn PermissionError p), w)
           end
       end.

(** [open(path, "w")]: the file is created, or emptied when it exists. *)
Definition open_write (p : pystr) : M unit :=
  λ w, match files w !! p with
       | Some Directory => (Raise (Exn IsADirectoryError p), w)
       | Some Denied => (Raise (Exn PermissionError p), w)
       | _ => (Ret tt, set_files (<[p := Regular []]> (files w)) w)
       end.

Definition append_text (s : pystr) (n : fnode) : fnode :=
  match n with
  | Regular text => Regular (text ++ s)
  | other => other
  end.

(** [f.write(s)] on the file opened at [p]. *)
Definition write (p s : pystr) : M unit :=
  modify (λ w, set_files (alter (append_text s) p (files w)) w).

(** A method call on [BITBUCKET_WRAPPER]. *)
Definition call (c : api_call) : M pyval :=
  λ w, match BITBUCKET_WRAPPER w with
       | None => (Raise (Exn AttributeError
                   (py "'NoneType' object has no attribute")), w)
       | Some cl => let '(res, r') := respond cl c (remote w) in (res, sent c r' w)
       end.

(** ** The script *)

Definition configure_bitbucket_api : M unit :=
  text ← read_text (Some CONFIGURATION_FILE);
  config ← lift (yaml_safe_load (concat (readlines text)));
  config_url ← lift (py_getitem config (py "url"));
  config_username ← lift (py_getitem config (py "username"));
  config_password ← lift (py_getitem config (py "password"));
  modify (set_BITBUCKET_WRAPPER
            (Some (Bitbucket config_url config_username config_password false))).

Definition load_not_allowed_branches : M (list pystr) :=
  let lines := [] in
  lines ← try_except
    (path ← gets FILENAME;
     text ← read_text path;
     ret (strip <$> readlines text))
    (λ exception,
       if decide (exn_class_of exception = FileNotFoundError) then
         name ← gets FILENAME;
         print [Lit (py "Failure during execution: " ++ fmt name
                     ++ py " could not be found.")];;
         ret lines
       else
         print [Lit (py "Unexpected exception: "); ShowExn exception];;
         ret lines);
  ret lines.

Definition set_not_allowed_branches_file : M unit :=
  line ← input (py "Please enter filename (i.e., not-allowed-branches): ");
  modify (set_FILENAME (Some (strip line)));;
  name ← gets FILENAME;
  print [Lit (py "File " ++ fmt name ++ py " is set.")].

Definition set_project_key : M unit :=
  line ← input (py "Please enter project key (i.e., ISPJ): ");
  modify (set_PROJECT_KEY (Some (strip line)));;
  key ← gets PROJECT_KEY;
  print [Lit (py "Project key " ++ fmt key ++ py " is set.")].

Definition set_repository_slug : M unit :=
  line ← input (py "Please enter repository slug (i.e., prov-onends-adapter): ");
  modify (set_REPOSITORY_SLUG (Some (strip line)));;
  slug ← gets REPOSITORY_SLUG;
  print [Lit (py "Repository slug " ++ fmt slug ++ py " is set.")].

Definition get_project_details : M pyval :=
  key ← gets PROJECT_KEY;
  project_details ← call (Call_project key);
  print [Show project_details];;
  ret project_details.

Definition get_repository_details : M pyval :=
  key ← gets PROJECT_KEY;
  slug ← gets REPOSITORY_SLUG;
  repository_details ← call (Call_get_repo key slug);
  print [Show repository_details];;
  ret repository_details.

Definition get_branches : M pyval :=
  key ← gets PROJECT_KEY;
  slug ← gets REPOSITORY_SLUG;
  call (Call_get_branches key slug (py "") 99999 true false).

Definition snapshot_name (slug : option pystr) (d : date) : pystr :=
  py "branches-" ++ fmt slug ++ py "-" ++ strftime_ymd d ++ py ".txt".

Definition save_body (filename : pystr) (item : pyval) : M unit :=
  display ← lift (py_getitem item (py "displayId"));
  text ← lift (py_add_str display [LF]);
  write filename text.

Definition save_branches : M unit :=
  now ← gets today;
  slug ← gets REPOSITORY_SLUG;
  let filename := snapshot_name slug now in
  open_write filename;;
  branches ← get_branches;
  items ← lift (py_iter branches);
  for_each items (save_body filename).

Definition delete_one (branch_name : pyval) : M unit :=
  try_except
    (key ← gets PROJECT_KEY;
     slug ← gets REPOSITORY_SLUG;
     call (Call_delete_branch key slug branch_name VNone);;
     ret tt)
    (λ exception,
       print [Lit (py "Failure while deleting branch '"); Show branch_name;
              Lit (py "': "); ShowExn exception]).

Definition delete_body (not_allowed_branches : list pystr) (branch : pyval) : M unit :=
  print [Show branch];;
  branch_name ← lift (py_getitem branch (py "displayId"));
  branch_is_default ← lift (py_getitem branch (py "isDefault"));
  if py_in branch_name not_allowed_branches then ret tt
  else if py_bool branch_is_default then ret tt
  else delete_one branch_name.

Definition delete_branches : M unit :=
  not_allowed_branches ← load_not_allowed_branches;
  branches ← get_branches;
  items ← lift (py_iter branches);
  for_each items (delete_body not_allowed_branches).

(** ** The menu *)

Definition MENU : pystr :=
  [LF] ++ py "0. Set filename"
  ++ [LF] ++ py "1. Set project key"
  ++ [LF] ++ py "2. Set repository slug"
  ++ [LF] ++ py "3. Get project details"
  ++ [LF] ++ py "4. Get repository details"
  ++ [LF] ++ py "5. Get branches"
  ++ [LF] ++ py "6. Save branches"
  ++ [LF] ++ py "7. Show not allowed branches"
  ++ [LF] ++ py "8. Delete branches"
  ++ [LF] ++ py "Enter your preference: ".

(** The chain of tests on the operator's answer: [true] when the loop goes
    on, [false] at [break]. *)
Definition dispatch (preference : pystr) : M bool :=
  if decide (strip preference = py "0") then set_not_allowed_branches_file;; ret true
  else if decide (strip preference = py "1") then set_project_key;; ret true
  else if decide (strip preference = py "2") then set_repository_slug;; ret true
  else if decide (strip preference = py "3") then get_project_details;; ret true
  else if decide (strip preference = py "4") then get_repository_details;; ret true
  else if decide (strip preference = py "5") then get_branches;; ret true
  else if decide (strip preference = py "6") then save_branches;; ret true
  else if decide (strip preference = py "7") then
    lines ← load_not_allowed_branches;
    print [Show (VList (VStr <$> lines))];;
    ret true
  else if decide (strip preference = py "8") then delete_branches;; ret true
  else print [Lit (py "Thanks for using me - bye!")];; ret false.

(** One turn of [while True]. *)
Definition menu_turn : M bool :=
  preference ← input MENU;
  dispatch preference.

Inductive ending : Type :=
  | Finished       (* the program reached its last statement *)
  | Out_of_fuel.   (* the model stopped unrolling the loop *)

Fixpoint menu_loop (fuel : nat) : M ending :=
  match fuel with
  | O => ret Out_of_fuel
  | S fuel' => go_on ← menu_turn; if go_on : bool then menu_loop fuel' else ret Finished
  end.

(** The [__main__] block; [cli_filename] is what [parse_args] found for
    [--filename]. *)
Definition main (cli_filename : option pystr) (fuel : nat) : M ending :=
  print [ShowArgs cli_filename];;
  try_except
    (print [Lit (py "Please apply the steps respectively.")];;
     configure_bitbucket_api;;
     menu_loop fuel)
    (λ exception,
       print [Lit (py "Unexpected exception: "); ShowExn exception];;
       ret Finished).

End Program.

Arguments World R : clear implicits.
Arguments M R A : clear implicits.

(** ** Vocabulary of the properties *)

(** The two fields [delete_branches] reads off a branch record. *)
Definition display_name (branch : pyval) : outcome pyval :=
  py_getitem branch (py "displayId").
Definition default_flag (branch : pyval) : outcome pyval :=
  py_getitem branch (py "isDefault").

(** A record the loop of [delete_branches] reaches the delete request for:
    it has both fields, its name is not in the list and its flag is false. *)
Definition deletable (not_allowed : list pystr) (branch : pyval) : bool :=
  match display_name branch, default_flag branch with
  | Ret n, Ret f => negb (py_in n not_allowed) && negb (py_bool f)
  | _, _ => false
  end.

(** A record with both fields. *)
Definition well_formed (branch : pyval) : bool :=
  match display_name branch, default_flag branch with
  | Ret _, Ret _ => true
  | _, _ => false
  end.

(** The names of a list of records; a record without name is skipped. *)
Definition names_of (branches : list pyval) : list pyval :=
  omap (λ b, match display_name b with Ret n => Some n | Raise _ => None end) branches.

(** The delete request the script sends for a name. *)
Definition delete_request (key slug : option pystr) (name : pyval) : api_call :=
  Call_delete_branch key slug name VNone.

(** The answers the service gives to a sequence of requests, and the state
    it is left in. *)
Fixpoint answers {R} `{!Collaborators R} (cl : client) (r : R) (cs : list api_call)
  : list (outcome pyval) :=
  match cs with
  | [] => []
  | c :: cs' => (respond cl c r).1 :: answers cl (respond cl c r).2 cs'
  end.

Fixpoint served {R} `{!Collaborators R} (cl : client) (r : R) (cs : list api_call) : R :=
  match cs with
  | [] => r
  | c :: cs' => served cl (respond cl c r).2 cs'
  end.

(** The state of the world a request leaves behind, but for what is printed. *)
Definition after_requests {R} `{!Collaborators R} (cl : client) (cs : list api_call)
    (out : list output) (w : World R) : World R :=
  mkWorld (PROJECT_KEY w) (REPOSITORY_SLUG w) (FILENAME w) (BITBUCKET_WRAPPER w)
    (files w) (today w) (stdin w) (stdout w ++ out)
    (served cl (remote w) cs) (requests w ++ cs).

(** The same world with [pre] printed before everything else. *)
Definition shift {R} (pre : list output) (w : World R) : World R :=
  set_stdout (pre ++ stdout w) w.

(** A computation that never reads what was printed: with more printed
    beforehand it does the same, and leaves the same printed beforehand. *)
Definition Framed {R} `{!Collaborators R} {A} (m : M R A) : Prop :=
  ∀ pre w, m (shift pre w) = ((m w).1, shift pre (m w).2).

(** What the reader and the listing call give in a world. *)
Definition protected_names {R} `{!Collaborators R} (w : World R) : list pystr :=
  match load_not_allowed_branches w with
  | (Ret lines, _) => lines
  | (Raise _, _) => []
  end.

Definition listed_branches {R} `{!Collaborators R} (w : World R) : list pyval :=
  match get_branches w with
  | (Ret v, _) => match py_iter v with Ret items => items | Raise _ => [] end
  | (Raise _, _) => []
  end.

(** A request is licensed by a list of records when it is the delete
    request for the name of a deletable record of the list. *)
Definition licensed (not_allowed : list pystr) (items : list pyval)
    (key slug : option pystr) (c : api_call) : Prop :=
  ∃ b n, b ∈ items ∧ display_name b = Ret n ∧ deletable not_allowed b = true
         ∧ c = delete_request key slug n.

(** No two records of the list carry the same name. *)
Definition unique_names (items : list pyval) : Prop :=
  ∀ b b' n, b ∈ items → b' ∈ items →
            display_name b = Ret n → display_name b' = Ret n → b = b'.

(** The listing request [get_branches] sends. *)
Definition listing_request (key slug : option pystr) : api_call :=
  Call_get_branches key slug (py "") 99999 true false.

(** A record whose default flag is present and false. *)
Definition non_default (branch : pyval) : bool :=
  match default_flag branch with
  | Ret f => negb (py_bool f)
  | Raise _ => false
  end.

(** A path [open(path, "w")] succeeds on: free, or taken by a file. *)
Definition writable (fs : gmap pystr fnode) (p : pystr) : bool :=
  match fs !! p with
  | Some Directory | Some Denied => false
  | _ => true
  end.

(** A string with no white space at either end. *)
Definition trimmed (s : pystr) : Prop :=
  (∀ c, head s = Some c → isspace c = false)
  ∧ (∀ c, last s = Some c → isspace c = false).

(** A computation that adds nothing to the lines still to be read. *)
Definition Consuming {R} `{!Collaborators R} {A} (m : M R A) : Prop :=
  ∀ w, (length (stdin (m w).2) ≤ length (stdin w))%nat.

(** The line [delete_branches] prints for a failed delete request. *)
Definition failure_report (name : pyval) (e : exn) : output :=
  Print [Lit (py "Failure while deleting branch '"); Show name; Lit (py "': "); ShowExn e].

Definition is_failure_report (o : output) : bool :=
  match o with
  | Print (Lit s :: _ :: _) => bool_decide (s = py "Failure while deleting branch '")
  | _ => false
  end.

(** The reports owed for a run of delete requests and their answers. *)
Fixpoint reports_for (names : list pyval) (results : list (outcome pyval)) : list output :=
  match names, results with
  | n :: names', Raise e :: results' => failure_report n e :: reports_for names' results'
  | _ :: names', Ret _ :: results' => reports_for names' results'
  | _, _ => []
  end.

(** The text [save_branches] writes for a list of records with string names. *)
Definition snapshot_text (names : list pystr) : pystr :=
  concat ((λ n, n ++ [LF]) <$> names).

(** The inputs the menu acts upon. *)
Definition recognized : list pystr :=
  [py "0"; py "1"; py "2"; py "3"; py "4"; py "5"; py "6"; py "7"; py "8"].

(** ** A small service to run the script against

    An in-memory repository: a list of branch records and the names whose
    deletion the service refuses. *)

Record demo_server : Type := DemoServer
  { demo_branches : list pyval; demo_locked : list pystr }.

Definition demo_other (name branch : pyval) : bool :=
  match display_name branch, name with
  | Ret (VStr a), VStr b => negb (bool_decide (a = b))
  | _, _ => true
  end.

Definition demo_respond (cl : client) (c : api_call) (s : demo_server)
  : outcome pyval * demo_server :=
  match c with
  | Call_project key => (Ret (VDict [(py "key", opt_val key)]), s)
  | Call_get_repo key slug => (Ret (VDict [(py "slug", opt_val slug)]), s)
  | Call_get_branches _ _ _ _ _ _ => (Ret (VList (demo_branches s)), s)
  | Call_delete_branch _ _ name _ =>
      if py_in name (demo_locked s)
      then (Raise (Exn LibraryError (py "409 Conflict")), s)
      else (Ret VNone,
            DemoServer (List.filter (demo_other name) (demo_branches s)) (demo_locked s))
  end.

Definition demo_yaml (text : pystr) : outcome pyval :=
  match text with
  | [] => Ret VNone
  | _ => Ret (VDict [(py "url", VStr (py "https://bitbucket.example"));
                     (py "username", VStr (py "operator"));
                     (py "password", VStr text)])
  end.

Global Instance demo_collaborators : Collaborators demo_server :=
  {| respond := demo_respond; yaml_safe_load := demo_yaml |}.

Definition branch_record (name : string) (is_default : bool) : pyval :=
  VDict [(py "id", VStr (py "refs/heads/" ++ py name));
         (py "displayId", VStr (py name));
         (py "isDefault", VBool is_default)].

Definition demo_client : client :=
  Bitbucket (VStr (py "https://bitbucket.example")) (VStr (py "operator"))
    (VStr (py "secret")) false.

Definition demo_world (name : option pystr) (fs : gmap pystr fnode)
    (typed : list pystr) (s : demo_server) : World demo_server :=
  mkWorld (Some (py "ISPJ")) (Some (py "repo1")) name (Some demo_client) fs
    (Date 2024 1 2) typed [] s [].

(** A world to run the script in: a protection file of three lines, and a
    repository whose branch [a] the service refuses to delete. *)
Definition demo_files : gmap pystr fnode :=
  {[ py "keep.txt" := Regular (py "main" ++ [LF] ++ py "  release " ++ [LF] ++ [LF]) ]}.

Definition demo_items : list pyval :=
  [branch_record "main" true; branch_record "a" false;
   branch_record "release" false; branch_record "b" false].

Definition demo_repo : demo_server := DemoServer demo_items [py "a"].

Definition demo_w : World demo_server :=
  demo_world (Some (py "keep.txt")) demo_files [] demo_repo.

Definition demo_unset : World demo_server :=
  demo_world None demo_files [] demo_repo.

Definition bare_record (name : string) : pyval :=
  VDict [(py "displayId", VStr (py name))].

Definition demo_two : World demo_server :=
  demo_world None ∅ [] (DemoServer [bare_record "a"; bare_record "b"] []).

Definition demo_typed (typed : list pystr) : World demo_server :=
  demo_world (Some (py "keep.txt")) demo_files typed demo_repo.

(** ** Vocabulary of the further properties *)

(** A computation that leaves an observation [f] of the world as it was,
    however it ends. *)
Definition Keeps {R} `{!Collaborators R} {A B} (f : World R → A) (m : M R B) : Prop :=
  ∀ w, f (m w).2 = f w.

(** A computation all of whose requests satisfy [P]. *)
Definition Sends {R} `{!Collaborators R} {B} (P : api_call → Prop) (m : M R B) : Prop :=
  ∀ w, ∃ cs, requests (m w).2 = requests w ++ cs ∧ Forall P cs.

Definition is_delete (c : api_call) : bool :=
  match c with
  | Call_delete_branch _ _ _ _ => true
  | _ => false
  end.

(** What the script holds on the operator's machine: its globals, the file
    system, the date and the lines still to be read. *)
Definition local_state {R} (w : World R) :=
  (PROJECT_KEY w, REPOSITORY_SLUG w, FILENAME w, BITBUCKET_WRAPPER w,
   files w, today w, stdin w).

(** The globals and the pending input alone. *)
Definition session_state {R} (w : World R) :=
  (PROJECT_KEY w, REPOSITORY_SLUG w, FILENAME w, BITBUCKET_WRAPPER w,
   today w, stdin w).

(** A record whose name is a string. *)
Definition string_name (branch : pyval) : bool :=
  match display_name branch with
  | Ret (VStr _) => true
  | _ => false
  end.

(** A branch name a text file keeps as it is: no line break inside, no
    white space at either end. *)
Definition clean (n : pystr) : Prop :=
  trimmed n ∧ Forall (λ c, c ≠ LF ∧ c ≠ CR) n.

(** The world after [configure_bitbucket_api] succeeded with client [cl]. *)
Definition configured {R} (cl : client) (w : World R) : World R :=
  set_BITBUCKET_WRAPPER (Some cl) w.

(** ** A service that is down

    Every request fails; the YAML loader is the one of the small service. *)

Inductive down_server : Type := Down.

Definition down_error : exn := Exn LibraryError (py "503 Service Unavailable").

Global Instance down_collaborators : Collaborators down_server :=
  {| respond := λ _ _ s, (Raise down_error, s); yaml_safe_load := demo_yaml |}.

Definition down_world (fs : gmap pystr fnode) (typed : list pystr) : World down_server :=
  mkWorld (Some (py "ISPJ")) (Some (py "repo1")) None (Some demo_client) fs
    (Date 2024 1 2) typed [] Down [].

Definition old_snapshot : gmap pystr fnode :=
  {[ py "branches-repo1-2024-01-02.txt" := Regular (py "main" ++ [LF] ++ py "a" ++ [LF]) ]}.

Definition config_files : gmap pystr fnode :=
  {[ py "configuration.yml" := Regular (py "url: https://bitbucket.example" ++ [LF]) ]}.

(** A listing whose second record has no default flag, and one whose second
    record has a number for a name. *)
Definition ragged_items : list pyval :=
  [branch_record "a" false; bare_record "x"; branch_record "b" false].

Definition ragged_world : World demo_server :=
  demo_world None ∅ [] (DemoServer ragged_items []).

Definition nameless_items : list pyval :=
  [bare_record "a"; VDict [(py "displayId", VInt 7)]; bare_record "b"].

Definition nameless_world : World demo_server :=
  demo_world None ∅ [] (DemoServer nameless_items []).

(** A world before [configure_bitbucket_api]: no client yet. *)
Definition fresh_world (fs : gmap pystr fnode) (typed : list pystr) : World demo_server :=
  mkWorld None None None None fs (Date 2024 1 2) typed [] demo_repo [].

(** * Properties *)

(** ** The built-ins on small inputs *)

Example strip_padded : strip (py "  release ") = py "release".
Proof. reflexivity. Qed.

Example strip_blank_line : strip [LF] = [].
Proof. reflexivity. Qed.

(** A no-break space and an ideographic space are white space too. *)
Example strip_unicode : strip ([160; 12288] ++ py "v1 x" ++ [8203; 8195]) = py "v1 x" ++ [8203].
Proof. reflexivity. Qed.

Example readlines_newlines :
  readlines (py "a" ++ [CR; LF] ++ py "b" ++ [CR] ++ py "c" ++ [LF; CR] ++ py "d")
  = [py "a" ++ [LF]; py "b" ++ [LF]; py "c" ++ [LF]; [LF]; py "d"].
Proof. reflexivity. Qed.

Example snapshot_name_today :
  snapshot_name (Some (py "repo1")) (Date 2024 1 2) = py "branches-repo1-2024-01-02.txt".
Proof. reflexivity. Qed.

Example snapshot_name_unset :
  snapshot_name None (Date 1999 12 31) = py "branches-None-1999-12-31.txt".
Proof. reflexivity. Qed.

(** A record without the flag stops the loop of [delete_branches] with a
    [KeyError]; the loop of [save_branches] does not look at the flag. *)
Example delete_branches_bare_record :
  (delete_branches demo_two).1 = Raise (Exn KeyError (py "isDefault")).
Proof. reflexivity. Qed.


Section Reader.

Context {R : Type} `{!Collaborators R}.
Implicit Types w : World R.

Lemma bind_run {A B} (m : M R A) (f : A → M R B) w :
  (m ≫= f) w = match m w with
               | (Ret a, w') => f a w'
               | (Raise e, w') => (Raise e, w')
               end.
Proof. reflexivity. Qed.

(** The reader on a readable file: the trimmed lines, and no other effect. *)
Lemma load_regular w p text :
  FILENAME w = Some p → files w !! p = Some (Regular text) →
  load_not_allowed_branches w = (Ret (strip <$> readlines text), w).
Proof.
  intros Hname Hfile. unfold load_not_allowed_branches, try_except, read_text, gets.
  rewrite !bind_run, Hname, Hfile. reflexivity.
Qed.

(** The reader never raises: whatever the world, it returns a list and has
    at most printed one line, which is not a report of a failed deletion. *)
Lemma load_total w :
  ∃ lines out,
    load_not_allowed_branches w = (Ret lines, set_stdout (stdout w ++ out) w)
    ∧ List.filter is_failure_report out = [].
Proof.
  unfold load_not_allowed_branches, try_except, read_text, gets, print, modify.
  rewrite !bind_run.
  destruct (FILENAME w) as [p|] eqn:Hname; simpl.
  - destruct (files w !! p) as [[text| | |]|] eqn:Hfile; simpl;
      try (eexists [], [_]; rewrite ?Hname; split; reflexivity).
    exists (strip <$> readlines text), []. rewrite app_nil_r. by destruct w.
  - eexists [], [_]. split; reflexivity.
Qed.

End Reader.

Section Deletion.

Context {R : Type} `{!Collaborators R}.
Implicit Types w : World R.

(** What one turn of the loop of [delete_branches] does, case by case. *)
Lemma delete_body_run P b w :
  delete_body P b w =
  let w1 := set_stdout (stdout w ++ [Print [Show b]]) w in
  match display_name b, default_flag b with
  | Raise e, _ => (Raise e, w1)
  | Ret _, Raise e => (Raise e, w1)
  | Ret n, Ret f =>
      if py_in n P then (Ret tt, w1)
      else if py_bool f then (Ret tt, w1)
      else delete_one n w1
  end.
Proof.
  unfold delete_body, print, modify, lift, display_name, default_flag.
  rewrite !bind_run.
  destruct (py_getitem b (py "displayId")) as [n|e]; [|done].
  rewrite !bind_run.
  destruct (py_getitem b (py "isDefault")) as [f|e]; [|done].
  simpl. destruct (py_in n P); [done|]. by destruct (py_bool f).
Qed.

Lemma delete_one_run n w cl :
  BITBUCKET_WRAPPER w = Some cl →
  delete_one n w =
  let c := delete_request (PROJECT_KEY w) (REPOSITORY_SLUG w) n in
  match respond cl c (remote w) with
  | (Ret _, r') => (Ret tt, sent c r' w)
  | (Raise e, r') =>
      (Ret tt, set_stdout (stdout w ++ [failure_report n e]) (sent c r' w))
  end.
Proof.
  intros Hcl. unfold delete_one, try_except, call, gets, print, modify.
  rewrite !bind_run, Hcl. simpl.
  by destruct (respond cl _ (remote w)) as [[v|e] r'].
Qed.

(** Without a client the delete request is never sent; the failure is
    reported all the same. *)
Lemma delete_one_no_client n w :
  BITBUCKET_WRAPPER w = None →
  ∃ e, delete_one n w = (Ret tt, set_stdout (stdout w ++ [failure_report n e]) w).
Proof.
  intros Hcl. unfold delete_one, try_except, call, gets, print, modify.
  rewrite !bind_run, Hcl. by eexists.
Qed.

Lemma for_each_cons {A} (body : A → M R unit) x l w :
  for_each (x :: l) body w =
  match body x w with
  | (Ret _, w') => for_each l body w'
  | (Raise e, w') => (Raise e, w')
  end.
Proof. reflexivity. Qed.

(** The loop over well-formed records, with a client: it runs to its end,
    sends one delete request per deletable record, in the order of the
    list, and reports the requests that failed. *)
Lemma delete_loop_exact P items : ∀ w cl,
  BITBUCKET_WRAPPER w = Some cl →
  Forall (λ b, well_formed b = true) items →
  let names := names_of (List.filter (deletable P) items) in
  let cs := delete_request (PROJECT_KEY w) (REPOSITORY_SLUG w) <$> names in
  ∃ out,
    for_each items (delete_body P) w = (Ret tt, after_requests cl cs out w)
    ∧ List.filter is_failure_report out = reports_for names (answers cl (remote w) cs).
Proof.
  induction items as [|b items IH]; intros w cl Hcl Hwf.
  - exists []. split; [|done]. unfold after_requests. simpl.
    rewrite !app_nil_r. by destruct w.
  - apply Forall_cons in Hwf as [Hb Hwf].
    rewrite for_each_cons, delete_body_run. simpl.
    unfold well_formed in Hb. unfold deletable, names_of. simpl.
    destruct (display_name b) as [n|] eqn:Hn; [|done].
    destruct (default_flag b) as [f|] eqn:Hf; [|done].
    set (w1 := set_stdout (stdout w ++ [Print [Show b]]) w).
    assert (Hskip : ∀ w', w' = w1 →
      ∃ out, for_each items (delete_body P) w' =
               (Ret tt, after_requests cl
                  (delete_request (PROJECT_KEY w) (REPOSITORY_SLUG w)
                     <$> names_of (List.filter (deletable P) items)) out w)
             ∧ List.filter is_failure_report out =
               reports_for (names_of (List.filter (deletable P) items))
                 (answers cl (remote w)
                    (delete_request (PROJECT_KEY w) (REPOSITORY_SLUG w)
                       <$> names_of (List.filter (deletable P) items)))).
    { intros w' ->. destruct (IH w1 cl Hcl Hwf) as (out & Hrun & Hrep).
      exists (Print [Show b] :: out). split.
      - rewrite Hrun. unfold after_requests, w1. simpl. by rewrite <- app_assoc.
      - simpl. exact Hrep. }
    destruct (py_in n P) eqn:Hin; simpl; [by apply Hskip|].
    destruct (py_bool f) eqn:Hb'; simpl; [by apply Hskip|].
    rewrite Hn. simpl. fold (names_of (List.filter (deletable P) items)).
    rewrite (delete_one_run n w1 cl Hcl). simpl.
    set (c := delete_request (PROJECT_KEY w) (REPOSITORY_SLUG w) n).
    destruct (respond cl c (remote w)) as [[v|e] r'] eqn:Hres; simpl.
    + destruct (IH (sent c r' w1) cl Hcl Hwf) as (out & Hrun & Hrep).
      exists (Print [Show b] :: out). split.
      * etrans; [exact Hrun|]. unfold after_requests. simpl. fold c.
        rewrite Hres. simpl. by rewrite <- !app_assoc.
      * simpl in *. exact Hrep.
    + destruct (IH (set_stdout (stdout (sent c r' w1) ++ [failure_report n e])
                      (sent c r' w1)) cl Hcl Hwf) as (out & Hrun & Hrep).
      exists (Print [Show b] :: failure_report n e :: out). split.
      * etrans; [exact Hrun|]. unfold after_requests. simpl. fold c.
        rewrite Hres. simpl. by rewrite <- !app_assoc.
      * simpl in *. by rewrite Hrep.
Qed.

End Deletion.

Section Frame.

Context {R : Type} `{!Collaborators R}.
Implicit Types w : World R.

Lemma framed_ret {A} (a : A) : Framed (ret a : M R A).
Proof. by intros pre w. Qed.

Lemma framed_raise {A} e : Framed (raise e : M R A).
Proof. by intros pre w. Qed.

Lemma framed_lift {A} (o : outcome A) : Framed (lift o : M R A).
Proof. by intros pre w. Qed.

Lemma framed_bind {A B} (m : M R A) (f : A → M R B) :
  Framed m → (∀ a, Framed (f a)) → Framed (m ≫= f).
Proof.
  intros Hm Hf pre w. rewrite !bind_run, Hm.
  destruct (m w) as [[a|e] w']; simpl; [apply Hf|done].
Qed.

Lemma framed_try {A} (m : M R A) (h : exn → M R A) :
  Framed m → (∀ e, Framed (h e)) → Framed (try_except m h).
Proof.
  intros Hm Hh pre w. unfold try_except. rewrite Hm.
  destruct (m w) as [[a|e] w']; simpl; [done|apply Hh].
Qed.

Lemma framed_gets {A} (f : World R → A) :
  (∀ pre w, f (shift pre w) = f w) → Framed (gets f).
Proof. intros Hf pre w. unfold gets. by rewrite Hf. Qed.

Lemma framed_modify (f : World R → World R) :
  (∀ pre w, f (shift pre w) = shift pre (f w)) → Framed (modify f).
Proof. intros Hf pre w. unfold modify. simpl. by rewrite Hf. Qed.

Lemma framed_print line : Framed (print line : M R unit).
Proof.
  apply framed_modify. intros pre w. unfold shift. simpl. by rewrite app_assoc.
Qed.

Lemma framed_input prompt : Framed (input prompt : M R pystr).
Proof.
  intros pre w. unfold input, shift. simpl.
  destruct (stdin w); simpl; by rewrite app_assoc.
Qed.

Lemma framed_read_text path : Framed (read_text path : M R pystr).
Proof.
  intros pre w. unfold read_text. destruct path as [p|]; [|done]. simpl.
  by destruct (files w !! p) as [[]|].
Qed.

Lemma framed_open_write p : Framed (open_write p : M R unit).
Proof.
  intros pre w. unfold open_write. simpl. by destruct (files w !! p) as [[]|].
Qed.

Lemma framed_write p s : Framed (write p s : M R unit).
Proof. by apply framed_modify. Qed.

Lemma framed_call c : Framed (call c : M R pyval).
Proof.
  intros pre w. unfold call. simpl. destruct (BITBUCKET_WRAPPER w) as [cl|]; [|done].
  by destruct (respond cl c (remote w)).
Qed.

Lemma framed_for_each {A} (body : A → M R unit) l :
  (∀ x, Framed (body x)) → Framed (for_each l body).
Proof.
  intros Hbody. induction l as [|x l IH]; [apply framed_ret|].
  intros pre w. rewrite !for_each_cons, Hbody.
  destruct (body x w) as [[[]|e] w']; simpl; [apply IH|done].
Qed.

End Frame.

Create HintDb framed.
#[export] Hint Resolve framed_ret framed_raise framed_lift framed_bind framed_try
  framed_print framed_input framed_read_text framed_open_write framed_write
  framed_call framed_for_each : framed.

Ltac frame_step :=
  match goal with
  | |- Framed (_ ≫= _) => apply framed_bind
  | |- Framed (try_except _ _) => apply framed_try
  | |- Framed (gets _) => apply framed_gets; reflexivity
  | |- Framed (modify _) => apply framed_modify; reflexivity
  | |- Framed (for_each _ _) => apply framed_for_each
  | |- Framed (if decide ?P then _ else _) => destruct (decide P)
  | |- Framed (if ?b then _ else _) => destruct b
  | |- Framed (let _ := _ in _) => cbv zeta
  | |- ∀ _, _ => intro
  | |- Framed _ => solve [eauto with framed | assumption]
  end.

Ltac solve_framed := repeat frame_step.

Section Frame_script.

Context {R : Type} `{!Collaborators R}.
Implicit Types w : World R.

Lemma framed_configure : Framed (configure_bitbucket_api : M R unit).
Proof. unfold configure_bitbucket_api. solve_framed. Qed.

Lemma framed_load : Framed (load_not_allowed_branches : M R (list pystr)).
Proof. unfold load_not_allowed_branches. solve_framed. Qed.

Lemma framed_set_file : Framed (set_not_allowed_branches_file : M R unit).
Proof. unfold set_not_allowed_branches_file. solve_framed. Qed.

Lemma framed_set_key : Framed (set_project_key : M R unit).
Proof. unfold set_project_key. solve_framed. Qed.

Lemma framed_set_slug : Framed (set_repository_slug : M R unit).
Proof. unfold set_repository_slug. solve_framed. Qed.

Lemma framed_project_details : Framed (get_project_details : M R pyval).
Proof. unfold get_project_details. solve_framed. Qed.

Lemma framed_repository_details : Framed (get_repository_details : M R pyval).
Proof. unfold get_repository_details. solve_framed. Qed.

Lemma framed_get_branches : Framed (get_branches : M R pyval).
Proof. unfold get_branches. solve_framed. Qed.

Lemma framed_save : Framed (save_branches : M R unit).
Proof.
  pose proof framed_get_branches. unfold save_branches, save_body. solve_framed.
Qed.

Lemma framed_delete_one n : Framed (delete_one n : M R unit).
Proof. unfold delete_one. solve_framed. Qed.

Lemma framed_delete_body P b : Framed (delete_body P b : M R unit).
Proof. pose proof framed_delete_one. unfold delete_body. solve_framed. Qed.

Lemma framed_delete : Framed (delete_branches : M R unit).
Proof.
  pose proof framed_load. pose proof framed_get_branches.
  pose proof framed_delete_body. unfold delete_branches. solve_framed.
Qed.

Lemma framed_menu_turn : Framed (menu_turn : M R bool).
Proof.
  unfold menu_turn, dispatch.
  pose proof framed_set_file. pose proof framed_set_key. pose proof framed_set_slug.
  pose proof framed_project_details. pose proof framed_repository_details.
  pose proof framed_get_branches. pose proof framed_save. pose proof framed_load.
  pose proof framed_delete.
  solve_framed.
Qed.

Lemma framed_menu_loop fuel : Framed (menu_loop fuel : M R ending).
Proof.
  induction fuel as [|fuel IH]; simpl; [apply framed_ret|].
  apply framed_bind; [apply framed_menu_turn|]. intros []; [exact IH|apply framed_ret].
Qed.

(** The outcome of a computation that does not read what was printed is
    the same whatever was printed. *)
Lemma framed_outcome {A} (m : M R A) out w :
  Framed m → (m (set_stdout out w)).1 = (m w).1.
Proof.
  intros Hm.
  assert (Hw : ∀ o, set_stdout o w = shift o (set_stdout [] w)).
  { intros o. unfold shift. simpl. by rewrite app_nil_r. }
  rewrite (Hw out), Hm. simpl.
  replace w with (shift (stdout w) (set_stdout [] w)) at 2.
  - by rewrite Hm.
  - rewrite <- Hw. by destruct w.
Qed.

End Frame_script.

Section Safety.

Context {R : Type} `{!Collaborators R}.
Implicit Types w : World R.

Lemma licensed_cons P b items key slug c :
  licensed P items key slug c → licensed P (b :: items) key slug c.
Proof.
  intros (b' & n & Hb' & Hn & Hd & Hc). exists b', n. by rewrite elem_of_cons; eauto.
Qed.

(** Whatever the records and whatever the service answers, the loop sends
    nothing but delete requests licensed by the list, and leaves the key,
    the slug and the client alone. *)
Lemma delete_loop_safe P items : ∀ w,
  PROJECT_KEY (for_each items (delete_body P) w).2 = PROJECT_KEY w
  ∧ REPOSITORY_SLUG (for_each items (delete_body P) w).2 = REPOSITORY_SLUG w
  ∧ ∃ cs, requests (for_each items (delete_body P) w).2 = requests w ++ cs
          ∧ Forall (licensed P items (PROJECT_KEY w) (REPOSITORY_SLUG w)) cs.
Proof.
  induction items as [|b items IH]; intros w.
  { repeat split; simpl. exists []. by rewrite app_nil_r. }
  assert (Hgo : ∀ w1 c1,
    PROJECT_KEY w1 = PROJECT_KEY w → REPOSITORY_SLUG w1 = REPOSITORY_SLUG w →
    requests w1 = requests w ++ c1 →
    Forall (licensed P (b :: items) (PROJECT_KEY w) (REPOSITORY_SLUG w)) c1 →
    PROJECT_KEY (for_each items (delete_body P) w1).2 = PROJECT_KEY w
    ∧ REPOSITORY_SLUG (for_each items (delete_body P) w1).2 = REPOSITORY_SLUG w
    ∧ ∃ cs, requests (for_each items (delete_body P) w1).2 = requests w ++ cs
            ∧ Forall (licensed P (b :: items) (PROJECT_KEY w) (REPOSITORY_SLUG w)) cs).
  { intros w1 c1 Hk Hs Hr Hc1. destruct (IH w1) as (Hk' & Hs' & cs & Hcs & Hlic).
    rewrite Hk', Hs', Hk, Hs. repeat split. exists (c1 ++ cs). split.
    - by rewrite Hcs, Hr, app_assoc.
    - apply Forall_app. split; [done|]. rewrite Hk, Hs in Hlic.
      eapply Forall_impl; [exact Hlic|]. intros c. apply licensed_cons. }
  assert (Hstop : ∀ (e : exn) w1,
    PROJECT_KEY w1 = PROJECT_KEY w → REPOSITORY_SLUG w1 = REPOSITORY_SLUG w →
    requests w1 = requests w →
    PROJECT_KEY (Raise (A:=unit) e, w1).2 = PROJECT_KEY w
    ∧ REPOSITORY_SLUG (Raise (A:=unit) e, w1).2 = REPOSITORY_SLUG w
    ∧ ∃ cs, requests (Raise (A:=unit) e, w1).2 = requests w ++ cs
            ∧ Forall (licensed P (b :: items) (PROJECT_KEY w) (REPOSITORY_SLUG w)) cs).
  { intros e w1 Hk Hs Hr. repeat split; [done..|]. exists []. by rewrite app_nil_r. }
  rewrite for_each_cons, delete_body_run. simpl.
  set (w1 := set_stdout (stdout w ++ [Print [Show b]]) w).
  destruct (display_name b) as [n|e] eqn:Hn; [|by apply Hstop].
  destruct (default_flag b) as [f|e] eqn:Hf; [|by apply Hstop].
  destruct (py_in n P) eqn:Hin; [by apply (Hgo w1 []); rewrite ?app_nil_r|].
  destruct (py_bool f) eqn:Hflag; [by apply (Hgo w1 []); rewrite ?app_nil_r|].
  assert (Hlic : licensed P (b :: items) (PROJECT_KEY w) (REPOSITORY_SLUG w)
                   (delete_request (PROJECT_KEY w) (REPOSITORY_SLUG w) n)).
  { exists b, n. split; [apply list_elem_of_here|]. split; [done|]. split; [|done].
    unfold deletable. by rewrite Hn, Hf, Hin, Hflag. }
  destruct (BITBUCKET_WRAPPER w1) as [cl|] eqn:Hcl.
  - rewrite (delete_one_run n w1 cl Hcl). simpl.
    destruct (respond cl _ (remote w)) as [[v|e] r'];
      (apply (Hgo _ [delete_request (PROJECT_KEY w) (REPOSITORY_SLUG w) n]);
         [done|done|done|by apply Forall_singleton]).
  - destruct (delete_one_no_client n w1 Hcl) as [e ->].
    by apply (Hgo _ []); rewrite ?app_nil_r.
Qed.

End Safety.

Section Batch.

Context {R : Type} `{!Collaborators R}.
Implicit Types w : World R.

Lemma get_branches_run w cl res r1 :
  BITBUCKET_WRAPPER w = Some cl →
  respond cl (listing_request (PROJECT_KEY w) (REPOSITORY_SLUG w)) (remote w) = (res, r1) →
  get_branches w
  = (res, sent (listing_request (PROJECT_KEY w) (REPOSITORY_SLUG w)) r1 w).
Proof.
  intros Hcl Hres. unfold get_branches, gets, call. rewrite !bind_run. simpl.
  unfold listing_request in Hres. by rewrite Hcl, Hres.
Qed.

Lemma get_branches_no_client w :
  BITBUCKET_WRAPPER w = None → ∃ e, get_branches w = (Raise e, w).
Proof.
  intros Hcl. unfold get_branches, gets, call. rewrite !bind_run. simpl.
  rewrite Hcl. by eexists.
Qed.

(** [delete_branches], statement by statement. *)
Lemma delete_branches_run w :
  delete_branches w =
  match load_not_allowed_branches w with
  | (Ret P, w1) =>
      match get_branches w1 with
      | (Ret v, w2) =>
          match py_iter v with
          | Ret items => for_each items (delete_body P) w2
          | Raise e => (Raise e, w2)
          end
      | (Raise e, w2) => (Raise e, w2)
      end
  | (Raise e, w1) => (Raise e, w1)
  end.
Proof.
  unfold delete_branches. rewrite bind_run.
  destruct (load_not_allowed_branches w) as [[P|e] w1]; [|done].
  rewrite bind_run. destruct (get_branches w1) as [[v|e] w2]; [|done].
  rewrite bind_run. unfold lift at 1. by destruct (py_iter v).
Qed.

Lemma deletable_inv P b n :
  deletable P b = true → display_name b = Ret n →
  py_in n P = false ∧ ∃ f, default_flag b = Ret f ∧ py_bool f = false.
Proof.
  unfold deletable. intros Hd Hn. rewrite Hn in Hd.
  destruct (default_flag b) as [f|]; [|done].
  apply andb_true_iff in Hd as [Hin Hflag].
  apply negb_true_iff in Hin, Hflag. eauto.
Qed.

(** Every request a run of [delete_branches] sends is the listing request
    or a delete request licensed by the list the listing returned. *)
Lemma delete_branches_requests w :
  ∃ cs, requests (delete_branches w).2 = requests w ++ cs
        ∧ Forall (λ c, c = listing_request (PROJECT_KEY w) (REPOSITORY_SLUG w)
                       ∨ licensed (protected_names w) (listed_branches w)
                           (PROJECT_KEY w) (REPOSITORY_SLUG w) c) cs.
Proof.
  rewrite delete_branches_run. unfold protected_names, listed_branches.
  destruct (load_total w) as (P & out & -> & _).
  set (w1 := set_stdout (stdout w ++ out) w).
  destruct (BITBUCKET_WRAPPER w) as [cl|] eqn:Hcl.
  - destruct (respond cl (listing_request (PROJECT_KEY w) (REPOSITORY_SLUG w)) (remote w))
      as [res r1] eqn:Hres.
    rewrite (get_branches_run w1 cl res r1 Hcl Hres).
    rewrite (get_branches_run w cl res r1 Hcl Hres).
    destruct res as [v|e]; simpl.
    + destruct (py_iter v) as [items|e]; simpl.
      * destruct (delete_loop_safe P items
                    (sent (listing_request (PROJECT_KEY w) (REPOSITORY_SLUG w)) r1 w1))
          as (_ & _ & cs & Hcs & Hlic).
        exists (listing_request (PROJECT_KEY w) (REPOSITORY_SLUG w) :: cs). split.
        -- rewrite Hcs. simpl. by rewrite <- app_assoc.
        -- apply Forall_cons. split; [by left|].
           eapply Forall_impl; [exact Hlic|]. intros c Hc. by right.
      * exists [listing_request (PROJECT_KEY w) (REPOSITORY_SLUG w)].
        split; [done|]. apply Forall_singleton. by left.
    + exists [listing_request (PROJECT_KEY w) (REPOSITORY_SLUG w)].
      split; [done|]. apply Forall_singleton. by left.
  - destruct (get_branches_no_client w1 Hcl) as [e ->]. simpl.
    exists []. by rewrite app_nil_r.
Qed.

(** A run over a listing of well-formed records, with a client. *)
Lemma delete_branches_exact w cl v items r1 :
  BITBUCKET_WRAPPER w = Some cl →
  respond cl (listing_request (PROJECT_KEY w) (REPOSITORY_SLUG w)) (remote w)
    = (Ret v, r1) →
  py_iter v = Ret items →
  Forall (λ b, well_formed b = true) items →
  let names := names_of (List.filter (deletable (protected_names w)) items) in
  let cs := delete_request (PROJECT_KEY w) (REPOSITORY_SLUG w) <$> names in
  ∃ out,
    delete_branches w
    = (Ret tt, after_requests cl
                 (listing_request (PROJECT_KEY w) (REPOSITORY_SLUG w) :: cs) out w)
    ∧ List.filter is_failure_report out = reports_for names (answers cl r1 cs).
Proof.
  intros Hcl Hres Hiter Hwf. rewrite delete_branches_run. unfold protected_names.
  destruct (load_total w) as (P & out0 & -> & Hout0).
  set (w1 := set_stdout (stdout w ++ out0) w).
  rewrite (get_branches_run w1 cl (Ret v) r1 Hcl Hres), Hiter.
  set (w2 := sent _ r1 w1).
  destruct (delete_loop_exact P items w2 cl Hcl Hwf) as (out & Hrun & Hrep).
  exists (out0 ++ out). split.
  - simpl in *. rewrite Hrun. unfold after_requests. simpl.
    rewrite Hres. simpl. by rewrite <- !app_assoc.
  - rewrite List.filter_app, Hout0. exact Hrep.
Qed.

End Batch.

Section Reports.

Lemma reports_for_elem names : ∀ results k n e,
  names !! k = Some n → results !! k = Some (Raise e) →
  failure_report n e ∈ reports_for names results.
Proof.
  induction names as [|n0 names IH]; intros results k n e Hn Hr; [done|].
  destruct results as [|[v|e0] results]; [done|..]; destruct k as [|k]; simpl in *.
  - done.
  - by eapply IH.
  - injection Hn as ->. injection Hr as ->. apply list_elem_of_here.
  - apply list_elem_of_further. by eapply IH.
Qed.

Lemma names_of_cons b n items :
  display_name b = Ret n → names_of (b :: items) = n :: names_of items.
Proof. intros Hn. unfold names_of. simpl. by rewrite Hn. Qed.

Lemma names_of_deletable P items :
  length (names_of (List.filter (deletable P) items))
  = length (List.filter (deletable P) items).
Proof.
  induction items as [|b items IH]; [done|]. simpl.
  destruct (deletable P b) eqn:Hd; [|done].
  unfold deletable in Hd. destruct (display_name b) as [n|] eqn:Hn; [|done].
  rewrite (names_of_cons b n _ Hn). simpl. by rewrite IH.
Qed.

Lemma deletable_unprotected b :
  well_formed b = true → deletable [] b = non_default b.
Proof.
  unfold well_formed, deletable, non_default.
  destruct (display_name b) as [n|]; [|done].
  destruct (default_flag b) as [f|]; [|done]. intros _.
  by destruct n.
Qed.

Lemma filter_unprotected items :
  Forall (λ b, well_formed b = true) items →
  List.filter (deletable []) items = List.filter non_default items.
Proof.
  induction 1 as [|b items Hb _ IH]; [done|]. simpl.
  by rewrite (deletable_unprotected b Hb), IH.
Qed.

End Reports.

Section Trimming.

Lemma lstrip_head s c : head (lstrip s) = Some c → isspace c = false.
Proof.
  induction s as [|a s IH]; [done|]. simpl.
  destruct (isspace a) eqn:Ha; [exact IH|]. simpl. by intros [= <-].
Qed.

Lemma lstrip_suffix s : ∃ pre, s = pre ++ lstrip s.
Proof.
  induction s as [|a s [pre IH]]; [by exists []|]. simpl.
  destruct (isspace a); [|by exists []].
  exists (a :: pre). simpl. by rewrite <- IH.
Qed.

Lemma rstrip_prefix s : ∃ suf, s = rstrip s ++ suf.
Proof.
  unfold rstrip. destruct (lstrip_suffix (reverse s)) as [pre Hpre].
  exists (reverse pre). rewrite <- reverse_app, <- Hpre. by rewrite reverse_involutive.
Qed.

Lemma strip_trimmed s : trimmed (strip s).
Proof.
  unfold strip. split; intros c Hc.
  - destruct (rstrip_prefix (lstrip s)) as [suf Hsuf].
    apply (lstrip_head s). rewrite Hsuf.
    destruct (rstrip (lstrip s)); [done|]. exact Hc.
  - unfold rstrip in Hc. rewrite last_reverse in Hc. by apply lstrip_head in Hc.
Qed.

End Trimming.

Section Snapshot.

Context {R : Type} `{!Collaborators R}.
Implicit Types w : World R.

Lemma write_run p s t w :
  files w !! p = Some (Regular t) →
  write p s w = (Ret tt, set_files (<[p := Regular (t ++ s)]> (files w)) w).
Proof.
  intros Hp. unfold write, modify. do 2 f_equal. apply map_eq. intros k.
  rewrite lookup_alter, lookup_insert. case_decide; [subst k; by rewrite Hp|done].
Qed.

Lemma save_body_run p b n t w :
  display_name b = Ret (VStr n) → files w !! p = Some (Regular t) →
  save_body p b w
  = (Ret tt, set_files (<[p := Regular (t ++ n ++ [LF])]> (files w)) w).
Proof.
  intros Hn Hp. unfold save_body, lift. unfold display_name in Hn.
  rewrite !bind_run, Hn. simpl. by apply write_run.
Qed.

(** The loop of [save_branches] over records with string names appends
    their lines to the open file. *)
Lemma save_loop_run p items : ∀ names t w,
  Forall2 (λ b n, display_name b = Ret (VStr n)) items names →
  files w !! p = Some (Regular t) →
  for_each items (save_body p) w
  = (Ret tt, set_files (<[p := Regular (t ++ snapshot_text names)]> (files w)) w).
Proof.
  induction items as [|b items IH]; intros names t w Hnames Hp.
  - apply Forall2_nil_inv_l in Hnames as ->. unfold snapshot_text. simpl.
    rewrite app_nil_r, insert_id by done. by destruct w.
  - apply Forall2_cons_inv_l in Hnames as (n & names' & Hn & Hnames & ->).
    rewrite for_each_cons, (save_body_run p b n t w Hn Hp).
    rewrite (IH names' (t ++ n ++ [LF])); [|done|by simpl; rewrite lookup_insert_eq].
    simpl. rewrite insert_insert_eq. unfold snapshot_text. simpl.
    by rewrite <- !app_assoc.
Qed.

(** Whatever the records, the loop leaves a file where the open file was. *)
Lemma save_loop_keeps_file p items : ∀ t w,
  files w !! p = Some (Regular t) →
  ∃ t', files (for_each items (save_body p) w).2 !! p = Some (Regular t').
Proof.
  induction items as [|b items IH]; intros t w Hp; [by exists t|].
  rewrite for_each_cons. unfold save_body at 1, lift. rewrite !bind_run.
  destruct (py_getitem b (py "displayId")) as [d|e]; [|by exists t].
  rewrite !bind_run. destruct (py_add_str d [LF]) as [s|e]; [|by exists t].
  rewrite (write_run p s t w Hp).
  apply (IH (t ++ s)). simpl. by rewrite lookup_insert_eq.
Qed.

Lemma open_write_run p w :
  writable (files w) p = true →
  open_write p w = (Ret tt, set_files (<[p := Regular []]> (files w)) w).
Proof.
  unfold writable, open_write. by destruct (files w !! p) as [[]|].
Qed.

Lemma open_write_refused p w :
  writable (files w) p = false → ∃ e, open_write p w = (Raise e, w).
Proof.
  unfold writable, open_write. destruct (files w !! p) as [[]|]; by eauto.
Qed.

(** [save_branches] over a listing of records with string names. *)
Lemma save_branches_run w cl v items names r1 :
  BITBUCKET_WRAPPER w = Some cl →
  writable (files w) (snapshot_name (REPOSITORY_SLUG w) (today w)) = true →
  respond cl (listing_request (PROJECT_KEY w) (REPOSITORY_SLUG w)) (remote w)
    = (Ret v, r1) →
  py_iter v = Ret items →
  Forall2 (λ b n, display_name b = Ret (VStr n)) items names →
  save_branches w
  = (Ret tt,
     set_files (<[snapshot_name (REPOSITORY_SLUG w) (today w)
                  := Regular (snapshot_text names)]> (files w))
       (sent (listing_request (PROJECT_KEY w) (REPOSITORY_SLUG w)) r1 w)).
Proof.
  intros Hcl Hwr Hres Hiter Hnames. unfold save_branches, gets.
  rewrite !bind_run. simpl. rewrite (open_write_run _ w Hwr).
  set (p := snapshot_name (REPOSITORY_SLUG w) (today w)).
  set (w1 := set_files _ w).
  rewrite bind_run, (get_branches_run w1 cl (Ret v) r1 Hcl Hres).
  rewrite bind_run. unfold lift at 1. rewrite Hiter.
  rewrite (save_loop_run p items names []); [|done|by simpl; rewrite lookup_insert_eq].
  simpl. by rewrite insert_insert_eq.
Qed.

(** After a run that returned, the snapshot path holds a file. *)
Lemma save_branches_leaves_file w w1 :
  save_branches w = (Ret tt, w1) →
  ∃ t, files w1 !! snapshot_name (REPOSITORY_SLUG w) (today w) = Some (Regular t).
Proof.
  unfold save_branches, gets. rewrite !bind_run. simpl.
  set (p := snapshot_name (REPOSITORY_SLUG w) (today w)).
  destruct (writable (files w) p) eqn:Hwr.
  - rewrite (open_write_run p w Hwr). set (w' := set_files _ w).
    rewrite bind_run. unfold get_branches, gets, call. rewrite !bind_run. simpl.
    destruct (BITBUCKET_WRAPPER w) as [cl|]; [|done].
    destruct (respond cl _ (remote w)) as [[v|e] r1]; [|done].
    rewrite bind_run. unfold lift at 1. destruct (py_iter v) as [items|e]; [|done].
    intros Hrun.
    destruct (save_loop_keeps_file p items []
                (sent (Call_get_branches (PROJECT_KEY w) (REPOSITORY_SLUG w)
                         (py "") 99999 true false) r1 w')) as [t Ht].
    { simpl. by rewrite lookup_insert_eq. }
    rewrite Hrun in Ht. by exists t.
  - destruct (open_write_refused p w Hwr) as [e ->]. done.
Qed.

End Snapshot.

(** A string that is none of the strings of an explicit list. *)
Ltac not_listed :=
  let H := fresh in
  intros H; repeat (apply elem_of_cons in H as [H|H]; [discriminate H|]);
  by apply elem_of_nil in H.

Section Menu.

Context {R : Type} `{!Collaborators R}.
Implicit Types w : World R.

Lemma input_run prompt line rest w :
  stdin w = line :: rest →
  input prompt w = (Ret line, set_stdin rest (set_stdout (stdout w ++ [Prompt prompt]) w)).
Proof. intros Hin. unfold input. by rewrite Hin. Qed.

Lemma dispatch_delete preference :
  strip preference = py "8" →
  dispatch preference = (delete_branches ≫= λ _, ret true : M R bool).
Proof.
  intros Heq. unfold dispatch. rewrite Heq.
  repeat (case_decide; [discriminate|]). by case_decide.
Qed.

Lemma dispatch_unrecognized preference :
  strip preference ∉ recognized →
  dispatch preference
  = (print [Lit (py "Thanks for using me - bye!")] ≫= λ _, ret false : M R bool).
Proof.
  intros Hnot. unfold dispatch.
  repeat (destruct (decide _) as [Heq|_];
          [exfalso; apply Hnot; rewrite Heq; unfold recognized;
           repeat (first [apply list_elem_of_here | apply list_elem_of_further])|]).
  done.
Qed.

End Menu.

Section Fuel.

Context {R : Type} `{!Collaborators R}.
Implicit Types w : World R.

Lemma consuming_ret {A} (a : A) : Consuming (ret a : M R A).
Proof. by intros w. Qed.

Lemma consuming_lift {A} (o : outcome A) : Consuming (lift o : M R A).
Proof. by intros w. Qed.

Lemma consuming_bind {A B} (m : M R A) (f : A → M R B) :
  Consuming m → (∀ a, Consuming (f a)) → Consuming (m ≫= f).
Proof.
  intros Hm Hf w. rewrite bind_run. specialize (Hm w).
  destruct (m w) as [[a|e] w']; simpl in *; [|done].
  specialize (Hf a w'). lia.
Qed.

Lemma consuming_try {A} (m : M R A) (h : exn → M R A) :
  Consuming m → (∀ e, Consuming (h e)) → Consuming (try_except m h).
Proof.
  intros Hm Hh w. unfold try_except. specialize (Hm w).
  destruct (m w) as [[a|e] w']; simpl in *; [done|].
  specialize (Hh e w'). lia.
Qed.

Lemma consuming_gets {A} (f : World R → A) : Consuming (gets f).
Proof. by intros w. Qed.

Lemma consuming_modify (f : World R → World R) :
  (∀ w, stdin (f w) = stdin w) → Consuming (modify f).
Proof. intros Hf w. unfold modify. simpl. by rewrite Hf. Qed.

Lemma consuming_print line : Consuming (print line : M R unit).
Proof. by apply consuming_modify. Qed.

Lemma consuming_input prompt : Consuming (input prompt : M R pystr).
Proof.
  intros w. unfold input. destruct (stdin w) eqn:Hin; simpl; rewrite ?Hin; simpl; lia.
Qed.

Lemma consuming_read_text path : Consuming (read_text path : M R pystr).
Proof.
  intros w. unfold read_text. destruct path as [p|]; [|done].
  by destruct (files w !! p) as [[]|].
Qed.

Lemma consuming_open_write p : Consuming (open_write p : M R unit).
Proof. intros w. unfold open_write. by destruct (files w !! p) as [[]|]. Qed.

Lemma consuming_write p s : Consuming (write p s : M R unit).
Proof. by apply consuming_modify. Qed.

Lemma consuming_call c : Consuming (call c : M R pyval).
Proof.
  intros w. unfold call. destruct (BITBUCKET_WRAPPER w) as [cl|]; [|done].
  by destruct (respond cl c (remote w)).
Qed.

Lemma consuming_for_each {A} (body : A → M R unit) l :
  (∀ x, Consuming (body x)) → Consuming (for_each l body).
Proof.
  intros Hbody. induction l as [|x l IH]; [apply consuming_ret|].
  intros w. rewrite for_each_cons. specialize (Hbody x w).
  destruct (body x w) as [[[]|e] w']; simpl in *; [|done].
  specialize (IH w'). lia.
Qed.

End Fuel.

Create HintDb consuming.
#[export] Hint Resolve consuming_ret consuming_lift consuming_bind consuming_try
  consuming_gets consuming_print consuming_input consuming_read_text
  consuming_open_write consuming_write consuming_call consuming_for_each : consuming.

Ltac consume_step :=
  match goal with
  | |- Consuming (_ ≫= _) => apply consuming_bind
  | |- Consuming (try_except _ _) => apply consuming_try
  | |- Consuming (modify _) => apply consuming_modify; reflexivity
  | |- Consuming (for_each _ _) => apply consuming_for_each
  | |- Consuming (if decide ?P then _ else _) => destruct (decide P)
  | |- Consuming (if ?b then _ else _) => destruct b
  | |- Consuming (let _ := _ in _) => cbv zeta
  | |- ∀ _, _ => intro
  | |- Consuming _ => solve [eauto with consuming | assumption]
  end.

Ltac solve_consuming := repeat consume_step.

Section Fuel_script.

Context {R : Type} `{!Collaborators R}.
Implicit Types w : World R.

Lemma consuming_load : Consuming (load_not_allowed_branches : M R (list pystr)).
Proof. unfold load_not_allowed_branches. solve_consuming. Qed.

Lemma consuming_get_branches : Consuming (get_branches : M R pyval).
Proof. unfold get_branches. solve_consuming. Qed.

Lemma consuming_save : Consuming (save_branches : M R unit).
Proof.
  pose proof consuming_get_branches. unfold save_branches, save_body.
  solve_consuming.
Qed.

Lemma consuming_delete : Consuming (delete_branches : M R unit).
Proof.
  pose proof consuming_load. pose proof consuming_get_branches.
  unfold delete_branches, delete_body, delete_one. solve_consuming.
Qed.

Lemma consuming_dispatch preference : Consuming (dispatch preference : M R bool).
Proof.
  pose proof consuming_load. pose proof consuming_get_branches.
  pose proof consuming_save. pose proof consuming_delete.
  unfold dispatch, set_not_allowed_branches_file, set_project_key,
    set_repository_slug, get_project_details, get_repository_details.
  solve_consuming.
Qed.

(** A turn after which the loop goes on has read at least one line. *)
Lemma menu_turn_consumes w :
  (menu_turn w).1 = Ret true →
  (length (stdin (menu_turn w).2) < length (stdin w))%nat.
Proof.
  unfold menu_turn. rewrite bind_run. unfold input.
  destruct (stdin w) as [|line rest] eqn:Hin; [done|]. intros _.
  pose proof (consuming_dispatch line
                (set_stdin rest (set_stdout (stdout w ++ [Prompt MENU]) w))) as Hle.
  simpl in *. lia.
Qed.

(** With more fuel than lines to read the loop reaches its end: it breaks
    or it raises, the end of the input raising [EOFError]. *)
Lemma menu_loop_enough_fuel fuel : ∀ w,
  (length (stdin w) < fuel)%nat → (menu_loop fuel w).1 ≠ Ret Out_of_fuel.
Proof.
  induction fuel as [|fuel IH]; intros w Hlen; [lia|]. simpl. rewrite bind_run.
  pose proof (menu_turn_consumes w) as Hturn.
  destruct (menu_turn w) as [[[]|e] w']; simpl in *; [|done..].
  apply IH. specialize (Hturn eq_refl). lia.
Qed.

Lemma consuming_configure : Consuming (configure_bitbucket_api : M R unit).
Proof. unfold configure_bitbucket_api. solve_consuming. Qed.

Lemma main_enough_fuel a fuel w :
  (length (stdin w) < fuel)%nat → (main a fuel w).1 ≠ Ret Out_of_fuel.
Proof.
  intros Hlen. unfold main, try_except, print, modify. rewrite !bind_run. simpl.
  set (w1 := set_stdout _ (set_stdout _ w)).
  pose proof (consuming_configure w1) as Hcfg.
  destruct (configure_bitbucket_api w1) as [[[]|e] w2]; simpl in *; [|done].
  pose proof (menu_loop_enough_fuel fuel w2) as Hloop.
  destruct (menu_loop fuel w2) as [[o|e] w3]; simpl in *; [|done].
  apply Hloop. lia.
Qed.

End Fuel_script.

Section Keeping.

Context {R : Type} `{!Collaborators R}.
Implicit Types w : World R.

Lemma for_each_app {A} (body : A → M R unit) l1 l2 w :
  for_each (l1 ++ l2) body w =
  match for_each l1 body w with
  | (Ret _, w') => for_each l2 body w'
  | (Raise e, w') => (Raise e, w')
  end.
Proof.
  revert w. induction l1 as [|x l1 IH]; intros w; [done|].
  rewrite <- app_comm_cons, !for_each_cons.
  destruct (body x w) as [[[]|e] w']; [apply IH|done].
Qed.

Context {A : Type} (f : World R → A).

Lemma keeps_ret {B} (b : B) : Keeps f (ret b : M R B).
Proof. by intros w. Qed.

Lemma keeps_lift {B} (o : outcome B) : Keeps f (lift o : M R B).
Proof. by intros w. Qed.

Lemma keeps_gets {B} (g : World R → B) : Keeps f (gets g).
Proof. by intros w. Qed.

Lemma keeps_bind {B C} (m : M R B) (k : B → M R C) :
  Keeps f m → (∀ b, Keeps f (k b)) → Keeps f (m ≫= k).
Proof.
  intros Hm Hk w. rewrite bind_run. specialize (Hm w).
  destruct (m w) as [[b|e] w']; simpl in *; [|done]. by rewrite Hk.
Qed.

Lemma keeps_try {B} (m : M R B) (h : exn → M R B) :
  Keeps f m → (∀ e, Keeps f (h e)) → Keeps f (try_except m h).
Proof.
  intros Hm Hh w. unfold try_except. specialize (Hm w).
  destruct (m w) as [[b|e] w']; simpl in *; [done|]. by rewrite Hh.
Qed.

Lemma keeps_for_each {B} (body : B → M R unit) l :
  (∀ x, Keeps f (body x)) → Keeps f (for_each l body).
Proof.
  intros Hbody. induction l as [|x l IH]; [apply keeps_ret|].
  intros w. rewrite for_each_cons. specialize (Hbody x w).
  destruct (body x w) as [[[]|e] w']; simpl in *; [|done]. by rewrite IH.
Qed.

Lemma keeps_modify (g : World R → World R) :
  (∀ w, f (g w) = f w) → Keeps f (modify g).
Proof. intros Hg w. apply Hg. Qed.

Lemma keeps_print line :
  (∀ o w, f (set_stdout o w) = f w) → Keeps f (print line : M R unit).
Proof. intros Hf. apply keeps_modify. intros w. apply Hf. Qed.

Lemma keeps_input prompt :
  (∀ o w, f (set_stdout o w) = f w) →
  (∀ l w, f (set_stdin l w) = f w) →
  Keeps f (input prompt : M R pystr).
Proof.
  intros Hout Hin w. unfold input. destruct (stdin w); simpl; by rewrite ?Hin, Hout.
Qed.

Lemma keeps_read_text path : Keeps f (read_text path : M R pystr).
Proof.
  intros w. unfold read_text. destruct path as [p|]; [|done].
  by destruct (files w !! p) as [[]|].
Qed.

Lemma keeps_open_write p :
  (∀ x w, f (set_files (<[p:=x]> (files w)) w) = f w) →
  Keeps f (open_write p : M R unit).
Proof.
  intros Hf w. unfold open_write. destruct (files w !! p) as [[]|]; simpl; by rewrite ?Hf.
Qed.

Lemma keeps_write p s :
  (∀ g w, f (set_files (alter g p (files w)) w) = f w) →
  Keeps f (write p s : M R unit).
Proof. intros Hf. apply keeps_modify. intros w. apply Hf. Qed.

Lemma keeps_call c :
  (∀ c r w, f (sent c r w) = f w) → Keeps f (call c : M R pyval).
Proof.
  intros Hf w. unfold call. destruct (BITBUCKET_WRAPPER w) as [cl|]; [|done].
  destruct (respond cl c (remote w)). simpl. apply Hf.
Qed.

End Keeping.

Ltac keep_side :=
  solve [ intros; reflexivity
        | intros; unfold set_files; simpl; by rewrite ?delete_insert_eq, ?delete_alter_eq ].

Ltac keep_step :=
  match goal with
  | |- Keeps _ (_ ≫= _) => apply keeps_bind
  | |- Keeps _ (try_except _ _) => apply keeps_try
  | |- Keeps _ (for_each _ _) => apply keeps_for_each
  | |- Keeps _ (ret _) => apply keeps_ret
  | |- Keeps _ (lift _) => apply keeps_lift
  | |- Keeps _ (gets _) => apply keeps_gets
  | |- Keeps _ (read_text _) => apply keeps_read_text
  | |- Keeps _ (print _) => apply keeps_print; keep_side
  | |- Keeps _ (input _) => apply keeps_input; keep_side
  | |- Keeps _ (open_write _) => apply keeps_open_write; keep_side
  | |- Keeps _ (write _ _) => apply keeps_write; keep_side
  | |- Keeps _ (call _) => apply keeps_call; keep_side
  | |- Keeps _ (modify _) => apply keeps_modify; keep_side
  | |- Keeps _ (if decide ?P then _ else _) => destruct (decide P)
  | |- Keeps _ (if ?b then _ else _) => destruct b
  | |- Keeps _ (let _ := _ in _) => cbv zeta
  | |- ∀ _, _ => intro
  | |- Keeps _ _ => assumption
  end.

Ltac solve_keeps := repeat keep_step.

Section Keeping_script.

Context {R : Type} `{!Collaborators R}.
Implicit Types w : World R.

Lemma load_keeps_local : Keeps local_state (load_not_allowed_branches : M R (list pystr)).
Proof. unfold load_not_allowed_branches. solve_keeps. Qed.

Lemma get_branches_keeps_local : Keeps local_state (get_branches : M R pyval).
Proof. unfold get_branches. solve_keeps. Qed.

Lemma project_details_keeps_local : Keeps local_state (get_project_details : M R pyval).
Proof. unfold get_project_details. solve_keeps. Qed.

Lemma repository_details_keeps_local :
  Keeps local_state (get_repository_details : M R pyval).
Proof. unfold get_repository_details. solve_keeps. Qed.

Lemma delete_keeps_local : Keeps local_state (delete_branches : M R unit).
Proof.
  pose proof load_keeps_local. pose proof get_branches_keeps_local.
  unfold delete_branches, delete_body, delete_one. solve_keeps.
Qed.

Lemma save_keeps_others w :
  session_state (save_branches w).2 = session_state w
  ∧ delete (snapshot_name (REPOSITORY_SLUG w) (today w)) (files (save_branches w).2)
    = delete (snapshot_name (REPOSITORY_SLUG w) (today w)) (files w).
Proof.
  set (p := snapshot_name (REPOSITORY_SLUG w) (today w)).
  assert (Hkeep : Keeps (λ w', (session_state w', delete p (files w')))
            (open_write p ≫= λ _, get_branches ≫= λ branches,
               lift (py_iter branches) ≫= λ items, for_each items (save_body p)
             : M R unit)).
  { unfold get_branches, save_body. solve_keeps. }
  split; [exact (f_equal fst (Hkeep w))|exact (f_equal snd (Hkeep w))].
Qed.

Lemma configure_keeps :
  Keeps (λ w, (PROJECT_KEY w, REPOSITORY_SLUG w, FILENAME w, files w, today w,
               stdin w, remote w, requests w))
    (configure_bitbucket_api : M R unit).
Proof. unfold configure_bitbucket_api. solve_keeps. Qed.

End Keeping_script.

Section Sending.

Context {R : Type} `{!Collaborators R}.
Implicit Types w : World R.
Context (P : api_call → Prop).

Lemma sends_keeps {B} (m : M R B) : Keeps requests m → Sends P m.
Proof. intros Hm w. exists []. by rewrite Hm, app_nil_r. Qed.

Lemma sends_bind {B C} (m : M R B) (k : B → M R C) :
  Sends P m → (∀ b, Sends P (k b)) → Sends P (m ≫= k).
Proof.
  intros Hm Hk w. rewrite bind_run. destruct (Hm w) as (cs & Hcs & HP).
  destruct (m w) as [[b|e] w']; simpl in *; [|by exists cs].
  destruct (Hk b w') as (cs' & Hcs' & HP'). exists (cs ++ cs'). split.
  - by rewrite Hcs', Hcs, app_assoc.
  - by apply Forall_app.
Qed.

Lemma sends_try {B} (m : M R B) (h : exn → M R B) :
  Sends P m → (∀ e, Sends P (h e)) → Sends P (try_except m h).
Proof.
  intros Hm Hh w. unfold try_except. destruct (Hm w) as (cs & Hcs & HP).
  destruct (m w) as [[b|e] w']; simpl in *; [by exists cs|].
  destruct (Hh e w') as (cs' & Hcs' & HP'). exists (cs ++ cs'). split.
  - by rewrite Hcs', Hcs, app_assoc.
  - by apply Forall_app.
Qed.

Lemma sends_for_each {B} (body : B → M R unit) l :
  (∀ x, Sends P (body x)) → Sends P (for_each l body).
Proof.
  intros Hbody. induction l as [|x l IH].
  { intros w. exists []. by rewrite app_nil_r. }
  intros w. rewrite for_each_cons. destruct (Hbody x w) as (cs & Hcs & HP).
  destruct (body x w) as [[[]|e] w']; simpl in *; [|by exists cs].
  destruct (IH w') as (cs' & Hcs' & HP'). exists (cs ++ cs'). split.
  - by rewrite Hcs', Hcs, app_assoc.
  - by apply Forall_app.
Qed.

Lemma sends_call c : P c → Sends P (call c : M R pyval).
Proof.
  intros Hc w. unfold call. destruct (BITBUCKET_WRAPPER w) as [cl|].
  - destruct (respond cl c (remote w)). exists [c]. split; [done|].
    by apply Forall_singleton.
  - exists []. by rewrite app_nil_r.
Qed.

End Sending.

Ltac send_step :=
  match goal with
  | |- Sends _ (_ ≫= _) => apply sends_bind
  | |- Sends _ (try_except _ _) => apply sends_try
  | |- Sends _ (for_each _ _) => apply sends_for_each
  | |- Sends _ (call _) => apply sends_call; reflexivity
  | |- Sends _ (if decide ?P then _ else _) => destruct (decide P)
  | |- Sends _ (if ?b then _ else _) => destruct b
  | |- Sends _ (let _ := _ in _) => cbv zeta
  | |- ∀ _, _ => intro
  | |- Sends _ _ => assumption
  | |- Sends _ _ => apply sends_keeps; solve [solve_keeps]
  end.

Ltac solve_sends := repeat send_step.

Section Sending_script.

Context {R : Type} `{!Collaborators R}.
Implicit Types w : World R.

Lemma save_sends_no_delete :
  Sends (λ c, is_delete c = false) (save_branches : M R unit).
Proof. unfold save_branches, get_branches, save_body. solve_sends. Qed.

Lemma load_sends_nothing P :
  Sends P (load_not_allowed_branches : M R (list pystr)).
Proof. unfold load_not_allowed_branches. solve_sends. Qed.

(** Off option 8 the menu sends no delete request. *)
Lemma dispatch_sends_no_delete preference :
  strip preference ≠ py "8" →
  Sends (λ c, is_delete c = false) (dispatch preference : M R bool).
Proof.
  intros Hne. pose proof save_sends_no_delete.
  pose proof (load_sends_nothing (λ c, is_delete c = false)).
  unfold dispatch, set_not_allowed_branches_file, set_project_key,
    set_repository_slug, get_project_details, get_repository_details, get_branches.
  solve_sends. all: by destruct Hne.
Qed.

End Sending_script.

(** * The claims *)

(** C1.  Whatever list the listing call returns, in whatever order, and
    whatever list the reader returns, every delete request a run of
    [delete_branches] sends carries a name that is not in the protected
    list and is the name of a listed record whose default flag is false.
    So no request goes out for a listed branch whose name is protected,
    and, where names are unique in the listing, none for a branch whose
    default flag is set. *)
Theorem delete_branches_spares_protected_and_default
    {R} `{!Collaborators R} (w : World R) :
  ∃ cs, requests (delete_branches w).2 = requests w ++ cs
  ∧ (∀ key slug n ep, Call_delete_branch key slug n ep ∈ cs →
       py_in n (protected_names w) = false
       ∧ ∃ b f, b ∈ listed_branches w ∧ display_name b = Ret n
                ∧ default_flag b = Ret f ∧ py_bool f = false)
  ∧ (∀ b s, b ∈ listed_branches w → display_name b = Ret (VStr s) →
       s ∈ protected_names w →
       ∀ key slug ep, Call_delete_branch key slug (VStr s) ep ∉ cs)
  ∧ (unique_names (listed_branches w) →
     ∀ b n f, b ∈ listed_branches w → display_name b = Ret n →
       default_flag b = Ret f → py_bool f = true →
       ∀ key slug ep, Call_delete_branch key slug n ep ∉ cs).
Proof.
  destruct (delete_branches_requests w) as (cs & Hcs & Hlic).
  exists cs. split; [exact Hcs|].
  assert (Hmain : ∀ key slug n ep, Call_delete_branch key slug n ep ∈ cs →
       py_in n (protected_names w) = false
       ∧ ∃ b f, b ∈ listed_branches w ∧ display_name b = Ret n
                ∧ default_flag b = Ret f ∧ py_bool f = false).
  { intros key slug n ep Hin.
    rewrite Forall_forall in Hlic. destruct (Hlic _ Hin) as [Heq|Hl]; [done|].
    destruct Hl as (b & n' & Hb & Hn & Hd & Heq). injection Heq as -> -> -> ->.
    destruct (deletable_inv _ _ _ Hd Hn) as (Hp & f & Hf & Hflag). eauto 10. }
  split; [exact Hmain|]. split.
  - intros b s Hb Hn Hs key slug ep Hin.
    destruct (Hmain _ _ _ _ Hin) as [Hp _]. simpl in Hp.
    by apply bool_decide_eq_false in Hp.
  - intros Huniq b n f Hb Hn Hf Hflag key slug ep Hin.
    destruct (Hmain _ _ _ _ Hin) as (_ & b' & f' & Hb' & Hn' & Hf' & Hflag').
    rewrite (Huniq b b' n Hb Hb' Hn Hn') in Hf. congruence.
Qed.

(** C2.  With N deletable branches in the listing, a delete request that
    fails does not end the batch: the run returns normally, one request has
    gone out for each of the N deletable branches whatever the service
    answered, and each failure is on the terminal with the name and the
    error. *)
Theorem delete_branches_survives_failures
    {R} `{!Collaborators R} (w : World R) cl v items r1 :
  BITBUCKET_WRAPPER w = Some cl →
  respond cl (listing_request (PROJECT_KEY w) (REPOSITORY_SLUG w)) (remote w)
    = (Ret v, r1) →
  py_iter v = Ret items →
  Forall (λ b, well_formed b = true) items →
  let names := names_of (List.filter (deletable (protected_names w)) items) in
  let cs := delete_request (PROJECT_KEY w) (REPOSITORY_SLUG w) <$> names in
  (delete_branches w).1 = Ret tt
  ∧ requests (delete_branches w).2
    = requests w ++ listing_request (PROJECT_KEY w) (REPOSITORY_SLUG w) :: cs
  ∧ length cs = length (List.filter (deletable (protected_names w)) items)
  ∧ ∀ k n e, names !! k = Some n → answers cl r1 cs !! k = Some (Raise e) →
      failure_report n e ∈ stdout (delete_branches w).2.
Proof.
  intros Hcl Hres Hiter Hwf names cs.
  destruct (delete_branches_exact w cl v items r1 Hcl Hres Hiter Hwf)
    as (out & Hrun & Hrep).
  fold names cs in Hrun, Hrep. rewrite Hrun. simpl.
  split; [done|]. split; [done|]. split.
  - unfold cs, names. by rewrite length_fmap, names_of_deletable.
  - intros k n e Hn He. apply elem_of_app. right.
    pose proof (reports_for_elem names _ k n e Hn He) as Hin.
    rewrite <- Hrep in Hin. apply list_elem_of_In in Hin.
    apply List.filter_In in Hin as [Hin _]. by apply list_elem_of_In.
Qed.

Lemma delete_branches_survives_failures_witness :
  (delete_branches demo_w).1 = Ret tt
  ∧ requests (delete_branches demo_w).2
    = [listing_request (Some (py "ISPJ")) (Some (py "repo1"));
       delete_request (Some (py "ISPJ")) (Some (py "repo1")) (VStr (py "a"));
       delete_request (Some (py "ISPJ")) (Some (py "repo1")) (VStr (py "b"))]
  ∧ failure_report (VStr (py "a")) (Exn LibraryError (py "409 Conflict"))
    ∈ stdout (delete_branches demo_w).2.
Proof.
  assert (Hwf : Forall (λ b, well_formed b = true) demo_items)
    by repeat constructor.
  assert (Hres : respond demo_client
                    (listing_request (PROJECT_KEY demo_w) (REPOSITORY_SLUG demo_w))
                    (remote demo_w) = (Ret (VList demo_items), demo_repo))
    by reflexivity.
  destruct (delete_branches_survives_failures demo_w demo_client (VList demo_items)
              demo_items demo_repo eq_refl Hres eq_refl Hwf)
    as (Hret & Hreq & _ & Hrep).
  split; [exact Hret|]. split; [exact Hreq|].
  exact (Hrep 0%nat (VStr (py "a")) (Exn LibraryError (py "409 Conflict"))
           eq_refl eq_refl).
Defined.

(** C9.  The delete requests go out in the order of the listing: what a run
    sends after the listing request is, name for name, the deletable
    records as the listing has them; nothing is sorted or grouped, and a
    request is sent once whether it fails or not. *)
Theorem delete_branches_follows_listing_order
    {R} `{!Collaborators R} (w : World R) cl v items r1 :
  BITBUCKET_WRAPPER w = Some cl →
  respond cl (listing_request (PROJECT_KEY w) (REPOSITORY_SLUG w)) (remote w)
    = (Ret v, r1) →
  py_iter v = Ret items →
  Forall (λ b, well_formed b = true) items →
  requests (delete_branches w).2
  = requests w ++ listing_request (PROJECT_KEY w) (REPOSITORY_SLUG w)
      :: (delete_request (PROJECT_KEY w) (REPOSITORY_SLUG w)
            <$> names_of (List.filter (deletable (protected_names w)) items))
  ∧ sublist (List.filter (deletable (protected_names w)) items) items.
Proof.
  intros Hcl Hres Hiter Hwf.
  destruct (delete_branches_exact w cl v items r1 Hcl Hres Hiter Hwf)
    as (out & Hrun & _).
  rewrite Hrun. split; [done|].
  clear. induction items as [|b items IH]; [done|]. simpl.
  destruct (deletable _ b); by constructor.
Qed.

Lemma delete_branches_follows_listing_order_witness :
  requests (delete_branches demo_w).2
  = [listing_request (Some (py "ISPJ")) (Some (py "repo1"));
     delete_request (Some (py "ISPJ")) (Some (py "repo1")) (VStr (py "a"));
     delete_request (Some (py "ISPJ")) (Some (py "repo1")) (VStr (py "b"))]
  ∧ sublist [branch_record "a" false; branch_record "b" false] demo_items.
Proof.
  assert (Hwf : Forall (λ b, well_formed b = true) demo_items)
    by repeat constructor.
  exact (delete_branches_follows_listing_order demo_w demo_client (VList demo_items)
           demo_items demo_repo eq_refl eq_refl eq_refl Hwf).
Defined.

(** C3.  When the protection path names no existing file, the reader does
    not raise: it prints one line and returns the empty list, leaving
    everything else as it was.  Where the path names nothing at all the
    line says that the file could not be found; where it names something
    that is not a readable file, the line reports the error. *)
Theorem load_missing_file_is_empty
    {R} `{!Collaborators R} (w : World R) (p : pystr) :
  FILENAME w = Some p →
  (∀ text, files w !! p ≠ Some (Regular text)) →
  ∃ line,
    load_not_allowed_branches w
    = (Ret [], set_stdout (stdout w ++ [Print line]) w)
    ∧ (files w !! p = None →
       line = [Lit (py "Failure during execution: " ++ p
                    ++ py " could not be found.")]).
Proof.
  intros Hname Hfile.
  unfold load_not_allowed_branches, try_except, read_text, gets, print, modify.
  rewrite !bind_run, Hname.
  destruct (files w !! p) as [[text| | |]|] eqn:Hp; simpl; rewrite ?Hname.
  - by destruct (Hfile text).
  - by eexists.
  - by eexists.
  - by eexists.
  - by eexists.
Qed.

Lemma load_missing_file_is_empty_witness :
  load_not_allowed_branches (demo_world (Some (py "nope.txt")) demo_files [] demo_repo)
  = (Ret [],
     set_stdout [Print [Lit (py "Failure during execution: nope.txt could not be found.")]]
       (demo_world (Some (py "nope.txt")) demo_files [] demo_repo)).
Proof.
  assert (Hnone : ∀ text, demo_files !! py "nope.txt" ≠ Some (Regular text)) by done.
  destruct (load_missing_file_is_empty
              (demo_world (Some (py "nope.txt")) demo_files [] demo_repo)
              (py "nope.txt") eq_refl Hnone) as (line & Hrun & Hline).
  by rewrite Hrun, (Hline eq_refl).
Defined.

(** C4.  With the filename never set, the reader's [open(None)] fails with a
    [TypeError], which the generic handler catches: a line is printed and
    the empty list returned.  [delete_branches] then runs with nothing
    protected: over a listing of well-formed records it returns normally
    and sends one delete request for each record whose default flag is
    false. *)
Theorem unset_filename_protects_nothing
    {R} `{!Collaborators R} (w : World R) :
  FILENAME w = None →
  load_not_allowed_branches w
  = (Ret [],
     set_stdout
       (stdout w ++ [Print [Lit (py "Unexpected exception: ");
                            ShowExn (Exn TypeError
                              (py "expected str, bytes or os.PathLike object, not NoneType"))]])
       w)
  ∧ ∀ cl v items r1,
      BITBUCKET_WRAPPER w = Some cl →
      respond cl (listing_request (PROJECT_KEY w) (REPOSITORY_SLUG w)) (remote w)
        = (Ret v, r1) →
      py_iter v = Ret items →
      Forall (λ b, well_formed b = true) items →
      (delete_branches w).1 = Ret tt
      ∧ requests (delete_branches w).2
        = requests w ++ listing_request (PROJECT_KEY w) (REPOSITORY_SLUG w)
            :: (delete_request (PROJECT_KEY w) (REPOSITORY_SLUG w)
                  <$> names_of (List.filter non_default items)).
Proof.
  intros Hname.
  assert (Hload : load_not_allowed_branches w
    = (Ret [],
       set_stdout
         (stdout w ++ [Print [Lit (py "Unexpected exception: ");
                              ShowExn (Exn TypeError
                                (py "expected str, bytes or os.PathLike object, not NoneType"))]])
         w)).
  { unfold load_not_allowed_branches, try_except, read_text, gets, print, modify.
    by rewrite !bind_run, Hname. }
  split; [exact Hload|].
  intros cl v items r1 Hcl Hres Hiter Hwf.
  destruct (delete_branches_exact w cl v items r1 Hcl Hres Hiter Hwf)
    as (out & Hrun & _).
  rewrite Hrun. unfold protected_names. rewrite Hload. simpl.
  by rewrite (filter_unprotected items Hwf).
Qed.

Lemma unset_filename_protects_nothing_witness :
  (load_not_allowed_branches demo_unset).1 = Ret []
  ∧ (delete_branches demo_unset).1 = Ret tt
  ∧ requests (delete_branches demo_unset).2
    = [listing_request (Some (py "ISPJ")) (Some (py "repo1"));
       delete_request (Some (py "ISPJ")) (Some (py "repo1")) (VStr (py "a"));
       delete_request (Some (py "ISPJ")) (Some (py "repo1")) (VStr (py "release"));
       delete_request (Some (py "ISPJ")) (Some (py "repo1")) (VStr (py "b"))].
Proof.
  assert (Hwf : Forall (λ b, well_formed b = true) demo_items)
    by repeat constructor.
  destruct (unset_filename_protects_nothing demo_unset eq_refl) as [Hload Hrun].
  split; [by rewrite Hload|].
  exact (Hrun demo_client (VList demo_items) demo_items demo_repo
           eq_refl eq_refl eq_refl Hwf).
Defined.

(** C6.  On a protection file with the three lines "main", "  release "
    and an empty one, each ended by a line feed, the reader returns exactly
    ["main", "release", ""].  For any readable file the result has one
    entry per line, in order, each with no white space at either end. *)
Theorem load_trims_and_keeps_blank_lines
    {R} `{!Collaborators R} (w : World R) (p : pystr) :
  FILENAME w = Some p →
  (files w !! p = Some (Regular (py "main" ++ [LF] ++ py "  release " ++ [LF] ++ [LF])) →
   load_not_allowed_branches w = (Ret [py "main"; py "release"; []], w))
  ∧ ∀ text, files w !! p = Some (Regular text) →
      load_not_allowed_branches w = (Ret (strip <$> readlines text), w)
      ∧ length (strip <$> readlines text) = length (readlines text)
      ∧ Forall trimmed (strip <$> readlines text).
Proof.
  intros Hname. split.
  - intros Hfile. by rewrite (load_regular w p _ Hname Hfile).
  - intros text Hfile. split; [by apply (load_regular w p)|]. split.
    + apply length_fmap.
    + induction (readlines text) as [|l ls IH]; constructor;
        [apply strip_trimmed|exact IH].
Qed.

Lemma load_trims_and_keeps_blank_lines_witness :
  load_not_allowed_branches demo_w = (Ret [py "main"; py "release"; []], demo_w).
Proof.
  exact (proj1 (load_trims_and_keeps_blank_lines demo_w (py "keep.txt") eq_refl) eq_refl).
Defined.

(** C7.  With the listing returning the records {displayId: "a"} and
    {displayId: "b"}, the slug "repo1" and the date 2024-01-02,
    [save_branches] returns normally and leaves, at the path
    branches-repo1-2024-01-02.txt, a file whose whole content is the two
    names, each followed by a line feed, in the order of the listing; no
    other path is touched. *)
Theorem save_branches_writes_snapshot
    {R} `{!Collaborators R} (w : World R) cl r1 :
  REPOSITORY_SLUG w = Some (py "repo1") →
  today w = Date 2024 1 2 →
  BITBUCKET_WRAPPER w = Some cl →
  writable (files w) (py "branches-repo1-2024-01-02.txt") = true →
  respond cl (listing_request (PROJECT_KEY w) (Some (py "repo1"))) (remote w)
    = (Ret (VList [bare_record "a"; bare_record "b"]), r1) →
  (save_branches w).1 = Ret tt
  ∧ files (save_branches w).2
    = <[py "branches-repo1-2024-01-02.txt"
        := Regular (py "a" ++ [LF] ++ py "b" ++ [LF])]> (files w).
Proof.
  intros Hslug Hday Hcl Hwr Hres.
  assert (Hpath : snapshot_name (REPOSITORY_SLUG w) (today w)
                  = py "branches-repo1-2024-01-02.txt")
    by (by rewrite Hslug, Hday).
  rewrite (save_branches_run w cl (VList [bare_record "a"; bare_record "b"])
             [bare_record "a"; bare_record "b"] [py "a"; py "b"] r1).
  - by rewrite Hpath.
  - done.
  - by rewrite Hpath.
  - by rewrite Hslug.
  - done.
  - by repeat constructor.
Qed.

Lemma save_branches_writes_snapshot_witness :
  (save_branches demo_two).1 = Ret tt
  ∧ files (save_branches demo_two).2
    = <[py "branches-repo1-2024-01-02.txt"
        := Regular (py "a" ++ [LF] ++ py "b" ++ [LF])]> (files demo_two).
Proof.
  exact (save_branches_writes_snapshot demo_two demo_client
           (DemoServer [bare_record "a"; bare_record "b"] [])
           eq_refl eq_refl eq_refl eq_refl eq_refl).
Defined.

(** C8.  A second run of [save_branches] with the same slug on the same
    day, on the snapshot a first run left, replaces it: the file then holds
    the lines of the second listing and nothing of the first, and the file
    system is the one a single run would have produced had the snapshot
    never existed. *)
Theorem save_branches_overwrites
    {R} `{!Collaborators R} (w0 w1 w : World R) cl v items names r1 :
  save_branches w0 = (Ret tt, w1) →
  REPOSITORY_SLUG w = REPOSITORY_SLUG w0 →
  today w = today w0 →
  files w !! snapshot_name (REPOSITORY_SLUG w0) (today w0)
    = files w1 !! snapshot_name (REPOSITORY_SLUG w0) (today w0) →
  BITBUCKET_WRAPPER w = Some cl →
  respond cl (listing_request (PROJECT_KEY w) (REPOSITORY_SLUG w)) (remote w)
    = (Ret v, r1) →
  py_iter v = Ret items →
  Forall2 (λ b n, display_name b = Ret (VStr n)) items names →
  let path := snapshot_name (REPOSITORY_SLUG w0) (today w0) in
  (save_branches w).1 = Ret tt
  ∧ files (save_branches w).2 !! path = Some (Regular (snapshot_text names))
  ∧ files (save_branches w).2
    = files (save_branches (set_files (delete path (files w)) w)).2.
Proof.
  intros Hfirst Hslug Hday Hsame Hcl Hres Hiter Hnames path.
  destruct (save_branches_leaves_file w0 w1 Hfirst) as [t Ht].
  fold path in Hsame, Ht. rewrite Ht in Hsame.
  assert (Hpath : snapshot_name (REPOSITORY_SLUG w) (today w) = path)
    by (by rewrite Hslug, Hday).
  rewrite (save_branches_run w cl v items names r1); try done.
  - rewrite (save_branches_run (set_files (delete path (files w)) w)
               cl v items names r1); try done.
    + simpl. rewrite Hpath. split; [done|]. split; [by rewrite lookup_insert_eq|].
      by rewrite insert_delete_eq.
    + simpl. rewrite Hpath. unfold writable. by rewrite lookup_delete_eq.
  - rewrite Hpath. unfold writable. by rewrite Hsame.
Qed.

Lemma save_branches_overwrites_witness :
  (save_branches (delete_branches (save_branches demo_w).2).2).1 = Ret tt
  ∧ files (save_branches (delete_branches (save_branches demo_w).2).2).2
      !! py "branches-repo1-2024-01-02.txt"
    = Some (Regular (py "main" ++ [LF] ++ py "a" ++ [LF] ++ py "release" ++ [LF]))
  ∧ files (save_branches (delete_branches (save_branches demo_w).2).2).2
    = files (save_branches
               (set_files (delete (py "branches-repo1-2024-01-02.txt")
                             (files (delete_branches (save_branches demo_w).2).2))
                  (delete_branches (save_branches demo_w).2).2)).2.
Proof.
  assert (Hnames : Forall2 (λ b n, display_name b = Ret (VStr n))
            [branch_record "main" true; branch_record "a" false;
             branch_record "release" false]
            [py "main"; py "a"; py "release"])
    by repeat constructor.
  exact (save_branches_overwrites demo_w (save_branches demo_w).2
           (delete_branches (save_branches demo_w).2).2 demo_client
           (VList [branch_record "main" true; branch_record "a" false;
                   branch_record "release" false])
           _ _ (DemoServer [branch_record "main" true; branch_record "a" false;
                            branch_record "release" false] [py "a"])
           eq_refl eq_refl eq_refl eq_refl eq_refl eq_refl eq_refl Hnames).
Defined.

(** C5, as the code has it.  The menu tests the operator's answer with the
    white space at its ends removed.  An answer that is "8" once trimmed
    makes the turn run [delete_branches] once, and when that returns the
    loop goes to its next turn; an answer that, once trimmed, is none of
    "0" to "8" (such as "9", "q" or the empty answer) ends the loop, and
    nothing happens but the prompt and the farewell being printed. *)
Theorem menu_dispatch_on_trimmed_input
    {R} `{!Collaborators R} (w : World R) (line : pystr) (rest : list pystr) :
  stdin w = line :: rest →
  let w1 := set_stdin rest (set_stdout (stdout w ++ [Prompt MENU]) w) in
  (strip line = py "8" →
     menu_turn w = (delete_branches ≫= λ _, ret true) w1
     ∧ ∀ fuel w2, delete_branches w1 = (Ret tt, w2) →
         menu_loop (S fuel) w = menu_loop fuel w2)
  ∧ (strip line ∉ recognized →
     ∀ fuel, menu_loop (S fuel) w
             = (Ret Finished,
                set_stdout (stdout w1 ++ [Print [Lit (py "Thanks for using me - bye!")]])
                  w1))
  ∧ (strip (py "9") ∉ recognized)
  ∧ (strip (py "q") ∉ recognized)
  ∧ (strip [] ∉ recognized).
Proof.
  intros Hin w1.
  assert (Hturn : menu_turn w = dispatch line w1).
  { unfold menu_turn. by rewrite bind_run, (input_run MENU line rest w Hin). }
  split; [|split].
  - intros Heq. rewrite Hturn, (dispatch_delete line Heq). split; [done|].
    intros fuel w2 Hrun. simpl. rewrite bind_run, Hturn, (dispatch_delete line Heq).
    by rewrite bind_run, Hrun.
  - intros Hnot fuel. simpl.
    by rewrite bind_run, Hturn, (dispatch_unrecognized line Hnot).
  - repeat split; not_listed.
Qed.

Lemma menu_dispatch_on_trimmed_input_witness :
  (menu_turn (demo_typed [py "8 "; py "q"])).1 = Ret true
  ∧ stdin (menu_turn (demo_typed [py "8 "; py "q"])).2 = [py "q"]
  ∧ (menu_loop 1 (demo_typed [py "q"])).1 = Ret Finished
  ∧ requests (menu_loop 1 (demo_typed [py "q"])).2 = [].
Proof.
  destruct (menu_dispatch_on_trimmed_input (demo_typed [py "8 "; py "q"])
              (py "8 ") [py "q"] eq_refl) as ((Hturn & _) & _); [reflexivity|].
  destruct (menu_dispatch_on_trimmed_input (demo_typed [py "q"]) (py "q") [] eq_refl)
    as (_ & Hend & _).
  assert (Hq : strip (py "q") ∉ recognized)
    by (not_listed).
  rewrite Hturn, (Hend Hq 0%nat). by vm_compute.
Defined.

(** C5, as the claim words it, fails: the answer " 8" (a space, then 8) is
    not one of the strings "0" to "8", and yet the turn runs
    [delete_branches], which sends its requests, and the loop goes on. *)
Lemma menu_padded_answer_is_dispatched :
  (py " 8" ∉ recognized)
  ∧ (menu_turn (demo_typed [py " 8"])).1 = Ret true
  ∧ requests (menu_turn (demo_typed [py " 8"])).2
    = [listing_request (Some (py "ISPJ")) (Some (py "repo1"));
       delete_request (Some (py "ISPJ")) (Some (py "repo1")) (VStr (py "a"));
       delete_request (Some (py "ISPJ")) (Some (py "repo1")) (VStr (py "b"))].
Proof.
  split; [not_listed|]. by vm_compute.
Qed.

(** C10.  Two runs of the program that differ only in the value given to
    [--filename] end the same way, in worlds that differ only in the line
    that echoes the parsed arguments: the same requests were sent, the same
    files written, the same lines printed after the echo, the global
    FILENAME is the same, and the reader returns the same list.  With more
    fuel than lines typed, that common end is the program's own. *)
Theorem cli_filename_is_ignored
    {R} `{!Collaborators R} (a1 a2 : option pystr) (fuel : nat) (w : World R) :
  ∃ o w',
    main a1 fuel w = (o, shift (stdout w ++ [Print [ShowArgs a1]]) w')
    ∧ main a2 fuel w = (o, shift (stdout w ++ [Print [ShowArgs a2]]) w')
    ∧ FILENAME (main a1 fuel w).2 = FILENAME (main a2 fuel w).2
    ∧ (load_not_allowed_branches (main a1 fuel w).2).1
      = (load_not_allowed_branches (main a2 fuel w).2).1
    ∧ ((length (stdin w) < fuel)%nat → o ≠ Ret Out_of_fuel).
Proof.
  pose proof (main_enough_fuel a1 fuel w) as Hfuel.
  unfold main in *.
  set (body := try_except _ _).
  assert (Hbody : Framed body).
  { pose proof framed_configure. pose proof (framed_menu_loop fuel).
    unfold body. solve_framed. }
  assert (Hmain : ∀ a, (print [ShowArgs a] ≫= λ _, body) w
                       = ((body (set_stdout [] w)).1,
                          shift (stdout w ++ [Print [ShowArgs a]])
                            (body (set_stdout [] w)).2)).
  { intros a. rewrite bind_run. unfold print, modify. rewrite <- Hbody.
    unfold shift. simpl. by rewrite app_nil_r. }
  exists (body (set_stdout [] w)).1, (body (set_stdout [] w)).2.
  fold body in Hfuel. rewrite !Hmain in *. simpl in *.
  repeat split; [|exact Hfuel]. by rewrite !framed_load.
Qed.

(** * Further properties of the script *)

Section Configuration.

Context {R : Type} `{!Collaborators R}.
Implicit Types w : World R.

(** [configure_bitbucket_api], case by case. *)
Lemma configure_run w :
  match configure_bitbucket_api w with
  | (Raise e, w') => w' = w
  | (Ret _, w') =>
      ∃ cl text config,
        w' = configured cl w ∧ verify_ssl cl = false
        ∧ files w !! CONFIGURATION_FILE = Some (Regular text)
        ∧ yaml_safe_load (concat (readlines text)) = Ret config
        ∧ py_getitem config (py "url") = Ret (url cl)
        ∧ py_getitem config (py "username") = Ret (username cl)
        ∧ py_getitem config (py "password") = Ret (password cl)
  end.
Proof.
  unfold configure_bitbucket_api, read_text, lift, modify. rewrite bind_run.
  destruct (files w !! CONFIGURATION_FILE) as [[text| | |]|] eqn:Hfile; try done.
  rewrite bind_run.
  destruct (yaml_safe_load (concat (readlines text))) as [config|] eqn:Hyaml; [|done].
  rewrite bind_run. destruct (py_getitem config (py "url")) as [u|] eqn:Hu; [|done].
  rewrite bind_run. destruct (py_getitem config (py "username")) as [n|] eqn:Hn; [|done].
  rewrite bind_run. destruct (py_getitem config (py "password")) as [p|] eqn:Hp; [|done].
  by exists (Bitbucket u n p false), text, config.
Qed.

Lemma configure_raise_unchanged w e :
  (configure_bitbucket_api w).1 = Raise e → configure_bitbucket_api w = (Raise e, w).
Proof.
  pose proof (configure_run w) as Hrun.
  destruct (configure_bitbucket_api w) as [[[]|e'] w']; simpl; [done|].
  intros [= ->]. by rewrite Hrun.
Qed.


End Configuration.

(** X1.  [configure_bitbucket_api] is all or nothing.  When it raises (no
    readable configuration file, a YAML error, a missing key) the world is
    as it was, the client included; when it returns, the only change is the
    client, built from the [url], [username] and [password] entries of the
    loaded configuration, with TLS verification off. *)
Theorem configure_all_or_nothing {R} `{!Collaborators R} (w : World R) :
  match configure_bitbucket_api w with
  | (Raise e, w') => w' = w
  | (Ret _, w') =>
      ∃ cl text config,
        w' = configured cl w ∧ verify_ssl cl = false
        ∧ files w !! CONFIGURATION_FILE = Some (Regular text)
        ∧ yaml_safe_load (concat (readlines text)) = Ret config
        ∧ py_getitem config (py "url") = Ret (url cl)
        ∧ py_getitem config (py "username") = Ret (username cl)
        ∧ py_getitem config (py "password") = Ret (password cl)
  end.
Proof.
  pose proof (configure_run w) as Hrun.
  destruct (configure_bitbucket_api w) as [[[]|e] w']; [|exact Hrun].
  destruct Hrun as (cl & text & config & Hrest). by exists cl, text, config.
Qed.

(** X2.  When the configuration cannot be loaded the program ends at once:
    it prints the parsed arguments, the greeting and the error, shows no
    menu, reads no input, sends no request and touches no file. *)
Theorem main_stops_without_configuration
    {R} `{!Collaborators R} (a : option pystr) (fuel : nat) (w : World R) (e : exn) :
  (configure_bitbucket_api w).1 = Raise e →
  main a fuel w
  = (Ret Finished,
     set_stdout (stdout w ++ [Print [ShowArgs a];
                              Print [Lit (py "Please apply the steps respectively.")];
                              Print [Lit (py "Unexpected exception: "); ShowExn e]])
       w).
Proof.
  intros Hcfg. unfold main, try_except, print, modify. rewrite !bind_run. simpl.
  set (w1 := set_stdout _ (set_stdout _ w)).
  assert (Hw1 : (configure_bitbucket_api w1).1 = Raise e).
  { rewrite <- Hcfg.
    exact (framed_outcome configure_bitbucket_api (stdout w1) w framed_configure). }
  rewrite (configure_raise_unchanged w1 e Hw1). simpl.
  rewrite bind_run. unfold w1, set_stdout. simpl. by rewrite <- !app_assoc.
Qed.

Lemma main_stops_without_configuration_witness :
  main (Some (py "keep.txt")) 5 (demo_typed [py "8"])
  = (Ret Finished,
     set_stdout [Print [ShowArgs (Some (py "keep.txt"))];
                 Print [Lit (py "Please apply the steps respectively.")];
                 Print [Lit (py "Unexpected exception: ");
                        ShowExn (Exn FileNotFoundError (py "configuration.yml"))]]
       (demo_typed [py "8"])).
Proof.
  exact (main_stops_without_configuration (Some (py "keep.txt")) 5
           (demo_typed [py "8"]) (Exn FileNotFoundError (py "configuration.yml"))
           eq_refl).
Defined.

(** X3.  No exception leaves the program: whatever the operator types and
    whatever the files and the service do, [main] returns; with more fuel
    than lines typed, it returns as the program's own end. *)
Theorem main_never_raises
    {R} `{!Collaborators R} (a : option pystr) (fuel : nat) (w : World R) :
  ∃ o, (main a fuel w).1 = Ret o
       ∧ ((length (stdin w) < fuel)%nat → o = Finished).
Proof.
  pose proof (main_enough_fuel a fuel w) as Hfuel. revert Hfuel.
  unfold main, try_except, print, modify. rewrite !bind_run. simpl.
  set (w1 := set_stdout _ (set_stdout _ w)).
  destruct (configure_bitbucket_api w1) as [[[]|e] w2]; simpl; [|by exists Finished].
  destruct (menu_loop fuel w2) as [[o|e] w3]; simpl; [|by exists Finished].
  intros Hfuel. exists o. split; [done|]. intros Hlen.
  destruct o; [done|]. by destruct (Hfuel Hlen).
Qed.


(** X5.  The filename the operator types is used trimmed: after
    [set_not_allowed_branches_file] the reader reads the file at the typed
    name without the white space around it, and returns its trimmed lines;
    one line of input is consumed and no file is changed. *)
Theorem typed_filename_is_read_trimmed
    {R} `{!Collaborators R} (w : World R) (line : pystr) (rest : list pystr)
    (text : pystr) :
  stdin w = line :: rest →
  files w !! strip line = Some (Regular text) →
  ∃ w', (set_not_allowed_branches_file ≫= λ _, load_not_allowed_branches) w
        = (Ret (strip <$> readlines text), w')
        ∧ FILENAME w' = Some (strip line)
        ∧ stdin w' = rest
        ∧ files w' = files w.
Proof.
  intros Hin Hfile.
  set (w1 := set_stdout
               ((stdout w ++ [Prompt (py "Please enter filename (i.e., not-allowed-branches): ")])
                ++ [Print [Lit (py "File " ++ strip line ++ py " is set.")]])
               (set_FILENAME (Some (strip line)) (set_stdin rest w))).
  assert (Hset : set_not_allowed_branches_file w = (Ret tt, w1)).
  { unfold set_not_allowed_branches_file.
    by rewrite bind_run, (input_run _ line rest w Hin). }
  rewrite bind_run, Hset, (load_regular w1 (strip line) text); [|done|done].
  by exists w1.
Qed.

Lemma typed_filename_is_read_trimmed_witness :
  ((set_not_allowed_branches_file ≫= λ _, load_not_allowed_branches)
     (demo_world None demo_files [py "  keep.txt "; py "8"] demo_repo)).1
  = Ret [py "main"; py "release"; []].
Proof.
  destruct (typed_filename_is_read_trimmed
              (demo_world None demo_files [py "  keep.txt "; py "8"] demo_repo)
              (py "  keep.txt ") [py "8"]
              (py "main" ++ [LF] ++ py "  release " ++ [LF] ++ [LF]) eq_refl eq_refl)
    as (w' & Hrun & _).
  by rewrite Hrun.
Defined.

(** X6.  The project key and the repository slug the operator types reach
    the service trimmed: after the two setters, [get_branches] sends one
    listing request, for the typed key and slug without the white space
    around them, and hands back what the service answers. *)
Theorem typed_key_and_slug_reach_the_listing
    {R} `{!Collaborators R} (w : World R) (k s : pystr) (rest : list pystr)
    (cl : client) :
  stdin w = k :: s :: rest →
  BITBUCKET_WRAPPER w = Some cl →
  let c := listing_request (Some (strip k)) (Some (strip s)) in
  ∃ w', (set_project_key ≫= λ _, set_repository_slug ≫= λ _, get_branches) w
        = ((respond cl c (remote w)).1, w')
        ∧ requests w' = requests w ++ [c]
        ∧ PROJECT_KEY w' = Some (strip k)
        ∧ REPOSITORY_SLUG w' = Some (strip s)
        ∧ stdin w' = rest.
Proof.
  intros Hin Hcl c.
  set (w1 := set_stdout
               ((stdout w ++ [Prompt (py "Please enter project key (i.e., ISPJ): ")])
                ++ [Print [Lit (py "Project key " ++ strip k ++ py " is set.")]])
               (set_PROJECT_KEY (Some (strip k)) (set_stdin (s :: rest) w))).
  assert (Hkey : set_project_key w = (Ret tt, w1)).
  { unfold set_project_key. by rewrite bind_run, (input_run _ k (s :: rest) w Hin). }
  set (w2 := set_stdout
               ((stdout w1 ++ [Prompt (py "Please enter repository slug (i.e., prov-onends-adapter): ")])
                ++ [Print [Lit (py "Repository slug " ++ strip s ++ py " is set.")]])
               (set_REPOSITORY_SLUG (Some (strip s)) (set_stdin rest w1))).
  assert (Hslug : set_repository_slug w1 = (Ret tt, w2)).
  { unfold set_repository_slug. by rewrite bind_run, (input_run _ s rest w1 eq_refl). }
  destruct (respond cl c (remote w)) as [res r1] eqn:Hres.
  rewrite bind_run, Hkey, bind_run, Hslug.
  rewrite (get_branches_run w2 cl res r1); [|done|exact Hres].
  by eexists.
Qed.

Lemma typed_key_and_slug_reach_the_listing_witness :
  requests ((set_project_key ≫= λ _, set_repository_slug ≫= λ _, get_branches)
              (demo_typed [py " KEY"; py "slug  "])).2
  = [listing_request (Some (py "KEY")) (Some (py "slug"))].
Proof.
  destruct (typed_key_and_slug_reach_the_listing
              (demo_typed [py " KEY"; py "slug  "]) (py " KEY") (py "slug  ") []
              demo_client eq_refl eq_refl)
    as (w' & Hrun & Hreq & _).
  by rewrite Hrun.
Defined.

(** X7.  The reader never raises, whatever the global FILENAME and whatever
    lies at that path (nothing, a directory, a file that cannot be opened
    or decoded): it returns a list, changes nothing but the terminal, and
    prints one line exactly when it could not read the file, in which case
    the list is empty. *)
Theorem reader_never_raises {R} `{!Collaborators R} (w : World R) :
  ∃ lines out,
    load_not_allowed_branches w = (Ret lines, set_stdout (stdout w ++ out) w)
    ∧ ((out = [] ∧ ∃ p text, FILENAME w = Some p
                              ∧ files w !! p = Some (Regular text)
                              ∧ lines = strip <$> readlines text)
       ∨ (lines = [] ∧ ∃ line, out = [Print line])).
Proof.
  unfold load_not_allowed_branches, try_except, read_text, gets, print, modify.
  rewrite !bind_run.
  destruct (FILENAME w) as [p|] eqn:Hname; simpl.
  - destruct (files w !! p) as [[text| | |]|] eqn:Hfile; simpl;
      try (eexists [], [_]; rewrite ?Hname; split; [reflexivity|right; eauto]).
    exists (strip <$> readlines text), []. rewrite app_nil_r. split; [by destruct w|].
    left. eauto 10.
  - eexists [], [_]. split; [reflexivity|right; eauto].
Qed.

(** X8.  A record without [displayId] or without [isDefault] stops the
    batch where it stands: [delete_branches] raises the lookup's error, the
    deletable records before it have had their delete request, and no
    request is sent for any record after it. *)
Theorem delete_branches_stops_at_malformed_record
    {R} `{!Collaborators R} (w : World R) cl v pre bad post r1 :
  BITBUCKET_WRAPPER w = Some cl →
  respond cl (listing_request (PROJECT_KEY w) (REPOSITORY_SLUG w)) (remote w)
    = (Ret v, r1) →
  py_iter v = Ret (pre ++ bad :: post) →
  Forall (λ b, well_formed b = true) pre →
  well_formed bad = false →
  (∃ e, (delete_branches w).1 = Raise e
        ∧ (display_name bad = Raise e ∨ default_flag bad = Raise e))
  ∧ requests (delete_branches w).2
    = requests w ++ listing_request (PROJECT_KEY w) (REPOSITORY_SLUG w)
        :: (delete_request (PROJECT_KEY w) (REPOSITORY_SLUG w)
              <$> names_of (List.filter (deletable (protected_names w)) pre)).
Proof.
  intros Hcl Hres Hiter Hwf Hbad. rewrite delete_branches_run. unfold protected_names.
  destruct (load_total w) as (P & out0 & -> & _).
  set (w1 := set_stdout (stdout w ++ out0) w).
  rewrite (get_branches_run w1 cl (Ret v) r1 Hcl Hres), Hiter.
  set (w2 := sent _ r1 w1).
  destruct (delete_loop_exact P pre w2 cl Hcl Hwf) as (out & Hrun & _).
  rewrite for_each_app, Hrun, for_each_cons, delete_body_run.
  unfold well_formed in Hbad. simpl.
  destruct (display_name bad) as [n|e] eqn:Hn.
  - destruct (default_flag bad) as [f|e] eqn:Hf; [done|]. simpl.
    split; [by eauto|]. by rewrite <- app_assoc.
  - simpl. split; [by eauto|]. by rewrite <- app_assoc.
Qed.

Lemma delete_branches_stops_at_malformed_record_witness :
  (delete_branches ragged_world).1 = Raise (Exn KeyError (py "isDefault"))
  ∧ requests (delete_branches ragged_world).2
    = [listing_request (Some (py "ISPJ")) (Some (py "repo1"));
       delete_request (Some (py "ISPJ")) (Some (py "repo1")) (VStr (py "a"))].
Proof.
  assert (Hwf : Forall (λ b, well_formed b = true) [branch_record "a" false])
    by repeat constructor.
  assert (Hres : respond demo_client
                   (listing_request (PROJECT_KEY ragged_world)
                      (REPOSITORY_SLUG ragged_world))
                   (remote ragged_world)
                 = (Ret (VList ragged_items), DemoServer ragged_items []))
    by reflexivity.
  assert (Hiter : py_iter (VList ragged_items)
                  = Ret ([branch_record "a" false] ++ bare_record "x"
                           :: [branch_record "b" false]))
    by reflexivity.
  destruct (delete_branches_stops_at_malformed_record ragged_world demo_client
              (VList ragged_items) [branch_record "a" false] (bare_record "x")
              [branch_record "b" false] (DemoServer ragged_items [])
              eq_refl Hres Hiter Hwf eq_refl) as [_ Hreq].
  split; [reflexivity|exact Hreq].
Defined.

(** X9.  When the listing call fails, [delete_branches] raises that very
    error after the reader has run, and the listing request is the only
    request it has sent: nothing is deleted. *)
Theorem delete_branches_needs_the_listing
    {R} `{!Collaborators R} (w : World R) cl e r1 :
  BITBUCKET_WRAPPER w = Some cl →
  respond cl (listing_request (PROJECT_KEY w) (REPOSITORY_SLUG w)) (remote w)
    = (Raise e, r1) →
  (delete_branches w).1 = Raise e
  ∧ requests (delete_branches w).2
    = requests w ++ [listing_request (PROJECT_KEY w) (REPOSITORY_SLUG w)]
  ∧ remote (delete_branches w).2 = r1.
Proof.
  intros Hcl Hres. rewrite delete_branches_run.
  destruct (load_total w) as (P & out0 & -> & _).
  by rewrite (get_branches_run (set_stdout (stdout w ++ out0) w) cl (Raise e) r1 Hcl Hres).
Qed.

Lemma delete_branches_needs_the_listing_witness :
  (delete_branches (down_world ∅ [])).1 = Raise down_error
  ∧ requests (delete_branches (down_world ∅ [])).2
    = [listing_request (Some (py "ISPJ")) (Some (py "repo1"))]
  ∧ remote (delete_branches (down_world ∅ [])).2 = Down.
Proof.
  exact (delete_branches_needs_the_listing (down_world ∅ []) demo_client
           down_error Down eq_refl eq_refl).
Defined.

(** X10.  The reader, the three queries and [delete_branches] change
    nothing on the operator's machine: however they end, the four globals,
    every file, the date and the pending input are as before.  They act on
    the terminal and on the service only. *)
Theorem queries_and_deletion_keep_local_state {R} `{!Collaborators R} (w : World R) :
  local_state (load_not_allowed_branches w).2 = local_state w
  ∧ local_state (get_project_details w).2 = local_state w
  ∧ local_state (get_repository_details w).2 = local_state w
  ∧ local_state (get_branches w).2 = local_state w
  ∧ local_state (delete_branches w).2 = local_state w.
Proof.
  repeat split.
  - apply load_keeps_local.
  - apply project_details_keeps_local.
  - apply repository_details_keeps_local.
  - apply get_branches_keeps_local.
  - apply delete_keeps_local.
Qed.

(** X11.  However it ends, [save_branches] writes at one path only, the
    snapshot's: every other path holds what it held; the globals and the
    pending input are as before; and none of its requests is a delete
    request. *)
Theorem save_branches_touches_one_path {R} `{!Collaborators R} (w : World R) :
  session_state (save_branches w).2 = session_state w
  ∧ (∀ q, q ≠ snapshot_name (REPOSITORY_SLUG w) (today w) →
          files (save_branches w).2 !! q = files w !! q)
  ∧ ∃ cs, requests (save_branches w).2 = requests w ++ cs
          ∧ Forall (λ c, is_delete c = false) cs.
Proof.
  destruct (save_keeps_others w) as [Hsession Hfiles].
  split; [exact Hsession|]. split; [|apply save_sends_no_delete].
  intros q Hq.
  rewrite <- (lookup_delete_ne (files (save_branches w).2)
                (snapshot_name (REPOSITORY_SLUG w) (today w)) q) by done.
  rewrite Hfiles. by apply lookup_delete_ne.
Qed.

(** X12.  The snapshot is emptied before the listing is asked for: when
    the listing call fails, [save_branches] raises that error and leaves
    an empty file at the snapshot path, whatever an earlier run had written
    there. *)
Theorem save_branches_failed_listing_empties_snapshot
    {R} `{!Collaborators R} (w : World R) cl e r1 :
  BITBUCKET_WRAPPER w = Some cl →
  writable (files w) (snapshot_name (REPOSITORY_SLUG w) (today w)) = true →
  respond cl (listing_request (PROJECT_KEY w) (REPOSITORY_SLUG w)) (remote w)
    = (Raise e, r1) →
  (save_branches w).1 = Raise e
  ∧ files (save_branches w).2 !! snapshot_name (REPOSITORY_SLUG w) (today w)
    = Some (Regular []).
Proof.
  intros Hcl Hwr Hres. unfold save_branches, gets. rewrite !bind_run. simpl.
  rewrite (open_write_run _ w Hwr).
  set (p := snapshot_name (REPOSITORY_SLUG w) (today w)).
  set (w1 := set_files _ w).
  rewrite bind_run, (get_branches_run w1 cl (Raise e) r1 Hcl Hres). simpl.
  split; [done|]. by rewrite lookup_insert_eq.
Qed.

Lemma save_branches_failed_listing_empties_snapshot_witness :
  files (down_world old_snapshot []) !! py "branches-repo1-2024-01-02.txt"
  = Some (Regular (py "main" ++ [LF] ++ py "a" ++ [LF]))
  ∧ (save_branches (down_world old_snapshot [])).1 = Raise down_error
  ∧ files (save_branches (down_world old_snapshot [])).2
      !! py "branches-repo1-2024-01-02.txt"
    = Some (Regular []).
Proof.
  split; [reflexivity|].
  exact (save_branches_failed_listing_empties_snapshot (down_world old_snapshot [])
           demo_client down_error Down eq_refl eq_refl eq_refl).
Defined.

(** X13.  A record whose [displayId] is missing or is not a string stops
    [save_branches] where it stands: the call raises, and the snapshot
    holds the lines of the records before it and nothing of those after. *)
Theorem save_branches_stops_at_nameless_record
    {R} `{!Collaborators R} (w : World R) cl v pre names bad post r1 :
  BITBUCKET_WRAPPER w = Some cl →
  writable (files w) (snapshot_name (REPOSITORY_SLUG w) (today w)) = true →
  respond cl (listing_request (PROJECT_KEY w) (REPOSITORY_SLUG w)) (remote w)
    = (Ret v, r1) →
  py_iter v = Ret (pre ++ bad :: post) →
  Forall2 (λ b n, display_name b = Ret (VStr n)) pre names →
  string_name bad = false →
  (∃ e, (save_branches w).1 = Raise e)
  ∧ files (save_branches w).2 !! snapshot_name (REPOSITORY_SLUG w) (today w)
    = Some (Regular (snapshot_text names)).
Proof.
  intros Hcl Hwr Hres Hiter Hnames Hbad.
  set (p := snapshot_name (REPOSITORY_SLUG w) (today w)).
  set (w2 := sent (listing_request (PROJECT_KEY w) (REPOSITORY_SLUG w)) r1
               (set_files (<[p := Regular []]> (files w)) w)).
  assert (Hloop : ∃ e, for_each (pre ++ bad :: post) (save_body p) w2
            = (Raise e, set_files (<[p := Regular (snapshot_text names)]> (files w2)) w2)).
  { rewrite for_each_app.
    rewrite (save_loop_run p pre names [] w2);
      [|done|by simpl; rewrite lookup_insert_eq].
    rewrite for_each_cons. unfold save_body at 1, lift. rewrite bind_run.
    unfold string_name, display_name in Hbad.
    destruct (py_getitem bad (py "displayId")) as [d|e]; [|by eexists].
    rewrite bind_run. destruct d; try done; by eexists. }
  destruct Hloop as [e Hloop].
  assert (Hrun : save_branches w
            = (Raise e, set_files (<[p := Regular (snapshot_text names)]> (files w2)) w2)).
  { unfold save_branches, gets. rewrite !bind_run. simpl.
    rewrite (open_write_run _ w Hwr). fold p.
    rewrite bind_run,
      (get_branches_run (set_files (<[p := Regular []]> (files w)) w) cl (Ret v) r1
         Hcl Hres).
    rewrite bind_run. unfold lift at 1. rewrite Hiter. exact Hloop. }
  rewrite Hrun. simpl. split; [by eauto|]. by rewrite lookup_insert_eq.
Qed.

Lemma save_branches_stops_at_nameless_record_witness :
  (save_branches nameless_world).1
  = Raise (Exn TypeError (py "unsupported operand type(s) for +"))
  ∧ files (save_branches nameless_world).2 !! py "branches-repo1-2024-01-02.txt"
    = Some (Regular (py "a" ++ [LF])).
Proof.
  assert (Hnames : Forall2 (λ b n, display_name b = Ret (VStr n))
                     [bare_record "a"] [py "a"]) by repeat constructor.
  assert (Hwr : writable (files nameless_world)
                  (snapshot_name (REPOSITORY_SLUG nameless_world) (today nameless_world))
                = true) by reflexivity.
  assert (Hres : respond demo_client
                   (listing_request (PROJECT_KEY nameless_world)
                      (REPOSITORY_SLUG nameless_world))
                   (remote nameless_world)
                 = (Ret (VList nameless_items), DemoServer nameless_items []))
    by reflexivity.
  assert (Hiter : py_iter (VList nameless_items)
                  = Ret ([bare_record "a"] ++ VDict [(py "displayId", VInt 7)]
                           :: [bare_record "b"]))
    by reflexivity.
  destruct (save_branches_stops_at_nameless_record nameless_world demo_client
              (VList nameless_items) [bare_record "a"] [py "a"]
              (VDict [(py "displayId", VInt 7)]) [bare_record "b"]
              (DemoServer nameless_items [])
              eq_refl Hwr Hres Hiter Hnames eq_refl) as [_ Hfile].
  split; [reflexivity|exact Hfile].
Defined.

Section Clean_names.

Lemma lstrip_id s : (∀ c, head s = Some c → isspace c = false) → lstrip s = s.
Proof. destruct s as [|c s]; [done|]. intros Hc. simpl. by rewrite (Hc c). Qed.

(** A clean name comes back from its line. *)
Lemma strip_line n : clean n → strip (n ++ [LF]) = n.
Proof.
  intros [[Hhead Hlast] _]. destruct n as [|c n]; [done|].
  unfold strip, rstrip.
  rewrite (lstrip_id ((c :: n) ++ [LF])) by (simpl; intros ? [= <-]; by apply Hhead).
  rewrite reverse_snoc. simpl.
  rewrite lstrip_id; [by rewrite reverse_involutive|].
  intros d Hd. apply Hlast. by rewrite <- head_reverse.
Qed.

Lemma readlines_from_line n : ∀ cur rest,
  Forall (λ c, c ≠ LF ∧ c ≠ CR) n →
  readlines_from cur (n ++ LF :: rest)
  = (reverse cur ++ n ++ [LF]) :: readlines_from [] rest.
Proof.
  induction n as [|c n IH]; intros cur rest Hn; simpl.
  - by rewrite reverse_cons.
  - apply Forall_cons in Hn as [[Hlf Hcr] Hn].
    apply N.eqb_neq in Hlf, Hcr. rewrite Hlf, Hcr, (IH _ _ Hn), reverse_cons.
    by rewrite <- app_assoc.
Qed.

Lemma readlines_snapshot names :
  Forall clean names →
  readlines (snapshot_text names) = (λ n, n ++ [LF]) <$> names.
Proof.
  unfold readlines, snapshot_text.
  induction 1 as [|n names [_ Hn] _ IH]; [done|].
  rewrite fmap_cons. simpl concat. rewrite <- app_assoc.
  change ([LF] ++ ?l) with (LF :: l).
  by rewrite (readlines_from_line n [] _ Hn), IH.
Qed.

Lemma strip_snapshot_lines names :
  Forall clean names → strip <$> readlines (snapshot_text names) = names.
Proof.
  intros Hclean. rewrite (readlines_snapshot names Hclean).
  induction Hclean as [|n names Hn _ IH]; [done|].
  by rewrite !fmap_cons, (strip_line n Hn), IH.
Qed.

End Clean_names.

(** X14.  A snapshot reads back as a protection list.  After
    [save_branches] has written the names of a listing, none of which has a
    line break inside or white space at an end, the reader pointed at the
    snapshot returns exactly those names, in order. *)
Theorem saved_snapshot_reads_back
    {R} `{!Collaborators R} (w : World R) cl v items names r1 :
  BITBUCKET_WRAPPER w = Some cl →
  writable (files w) (snapshot_name (REPOSITORY_SLUG w) (today w)) = true →
  respond cl (listing_request (PROJECT_KEY w) (REPOSITORY_SLUG w)) (remote w)
    = (Ret v, r1) →
  py_iter v = Ret items →
  Forall2 (λ b n, display_name b = Ret (VStr n)) items names →
  Forall clean names →
  let w1 := set_FILENAME (Some (snapshot_name (REPOSITORY_SLUG w) (today w)))
              (save_branches w).2 in
  load_not_allowed_branches w1 = (Ret names, w1).
Proof.
  intros Hcl Hwr Hres Hiter Hnames Hclean w1. unfold w1. clear w1.
  rewrite (save_branches_run w cl v items names r1 Hcl Hwr Hres Hiter Hnames).
  set (w1 := set_FILENAME _ _).
  rewrite (load_regular w1 (snapshot_name (REPOSITORY_SLUG w) (today w))
             (snapshot_text names)).
  - by rewrite (strip_snapshot_lines names Hclean).
  - done.
  - unfold w1. simpl. by rewrite lookup_insert_eq.
Qed.

Lemma saved_snapshot_reads_back_witness :
  (load_not_allowed_branches
     (set_FILENAME (Some (py "branches-repo1-2024-01-02.txt"))
        (save_branches demo_w).2)).1
  = Ret [py "main"; py "a"; py "release"; py "b"].
Proof.
  assert (Hnames : Forall2 (λ b n, display_name b = Ret (VStr n)) demo_items
                     [py "main"; py "a"; py "release"; py "b"])
    by repeat constructor.
  assert (Hclean : Forall clean [py "main"; py "a"; py "release"; py "b"]).
  { repeat constructor; try (intros c [= <-]; reflexivity); discriminate. }
  assert (Hwr : writable (files demo_w)
                  (snapshot_name (REPOSITORY_SLUG demo_w) (today demo_w)) = true)
    by reflexivity.
  assert (Hres : respond demo_client
                   (listing_request (PROJECT_KEY demo_w) (REPOSITORY_SLUG demo_w))
                   (remote demo_w) = (Ret (VList demo_items), demo_repo))
    by reflexivity.
  pose proof (saved_snapshot_reads_back demo_w demo_client (VList demo_items)
                demo_items [py "main"; py "a"; py "release"; py "b"] demo_repo
                eq_refl Hwr Hres eq_refl Hnames Hclean) as Hback.
  exact (f_equal fst Hback).
Defined.

(** X15.  A protection file that lists the name of every branch, one per
    line, protects them all: [delete_branches] returns normally and the
    listing request is the only request it sends. *)
Theorem full_protection_file_protects_every_branch
    {R} `{!Collaborators R} (w : World R) cl p v items names r1 :
  FILENAME w = Some p →
  files w !! p = Some (Regular (snapshot_text names)) →
  Forall clean names →
  BITBUCKET_WRAPPER w = Some cl →
  respond cl (listing_request (PROJECT_KEY w) (REPOSITORY_SLUG w)) (remote w)
    = (Ret v, r1) →
  py_iter v = Ret items →
  Forall (λ b, well_formed b = true) items →
  Forall (λ b, ∃ n, display_name b = Ret (VStr n) ∧ n ∈ names) items →
  (delete_branches w).1 = Ret tt
  ∧ requests (delete_branches w).2
    = requests w ++ [listing_request (PROJECT_KEY w) (REPOSITORY_SLUG w)].
Proof.
  intros Hname Hfile Hclean Hcl Hres Hiter Hwf Hall.
  destruct (delete_branches_exact w cl v items r1 Hcl Hres Hiter Hwf)
    as (out & Hrun & _).
  rewrite Hrun. simpl. split; [done|].
  assert (Hprot : protected_names w = names).
  { unfold protected_names. rewrite (load_regular w p _ Hname Hfile).
    by apply strip_snapshot_lines. }
  rewrite Hprot.
  assert (Hnone : List.filter (deletable names) items = []).
  { clear -Hall. induction Hall as [|b items (n & Hn & Hin) _ IH]; [done|].
    simpl. unfold deletable at 1. rewrite Hn.
    destruct (default_flag b); [|exact IH]. simpl.
    by rewrite (bool_decide_eq_true_2 _ Hin). }
  by rewrite Hnone.
Qed.

Lemma full_protection_file_protects_every_branch_witness :
  (delete_branches
     (set_FILENAME (Some (py "branches-repo1-2024-01-02.txt"))
        (save_branches demo_w).2)).1 = Ret tt
  ∧ requests
      (delete_branches
         (set_FILENAME (Some (py "branches-repo1-2024-01-02.txt"))
            (save_branches demo_w).2)).2
    = [listing_request (Some (py "ISPJ")) (Some (py "repo1"));
       listing_request (Some (py "ISPJ")) (Some (py "repo1"))].
Proof.
  set (w := set_FILENAME (Some (py "branches-repo1-2024-01-02.txt"))
              (save_branches demo_w).2).
  assert (Hfile : files w !! py "branches-repo1-2024-01-02.txt"
                  = Some (Regular (snapshot_text [py "main"; py "a"; py "release"; py "b"])))
    by reflexivity.
  assert (Hclean : Forall clean [py "main"; py "a"; py "release"; py "b"]).
  { repeat constructor; try (intros c [= <-]; reflexivity); discriminate. }
  assert (Hres : respond demo_client
                   (listing_request (PROJECT_KEY w) (REPOSITORY_SLUG w)) (remote w)
                 = (Ret (VList demo_items), demo_repo))
    by reflexivity.
  assert (Hwf : Forall (λ b, well_formed b = true) demo_items)
    by repeat constructor.
  assert (Hall : Forall (λ b, ∃ n, display_name b = Ret (VStr n)
                                   ∧ n ∈ [py "main"; py "a"; py "release"; py "b"])
                   demo_items).
  { repeat constructor; eexists; (split; [reflexivity|]);
      repeat (first [apply list_elem_of_here | apply list_elem_of_further]). }
  exact (full_protection_file_protects_every_branch w demo_client
           (py "branches-repo1-2024-01-02.txt") (VList demo_items) demo_items
           [py "main"; py "a"; py "release"; py "b"] demo_repo
           eq_refl Hfile Hclean eq_refl Hres eq_refl Hwf Hall).
Defined.

(** X16.  Deleting takes option 8: a turn of the menu on any answer that is
    not "8" once trimmed sends no delete request, whatever else it does. *)
Theorem only_option_8_deletes
    {R} `{!Collaborators R} (w : World R) (line : pystr) (rest : list pystr) :
  stdin w = line :: rest →
  strip line ≠ py "8" →
  ∃ cs, requests (menu_turn w).2 = requests w ++ cs
        ∧ Forall (λ c, is_delete c = false) cs.
Proof.
  intros Hin Hne. unfold menu_turn.
  rewrite bind_run, (input_run MENU line rest w Hin).
  destruct (dispatch_sends_no_delete line Hne
              (set_stdin rest (set_stdout (stdout w ++ [Prompt MENU]) w)))
    as (cs & Hcs & Hno).
  by exists cs.
Qed.

Lemma only_option_8_deletes_witness :
  ∃ cs, requests (menu_turn (demo_typed [py " 6 "])).2
        = requests (demo_typed [py " 6 "]) ++ cs
        ∧ Forall (λ c, is_delete c = false) cs.
Proof.
  assert (Hne : strip (py " 6 ") ≠ py "8") by discriminate.
  exact (only_option_8_deletes (demo_typed [py " 6 "]) (py " 6 ") [] eq_refl Hne).
Defined.

(** X17.  When the input ends at the menu prompt, after a configuration
    that loaded, the program ends: [input] raises [EOFError], the outer
    handler prints it, and no request has been sent nor file changed. *)
Theorem end_of_input_ends_the_program
    {R} `{!Collaborators R} (a : option pystr) (fuel : nat) (w : World R) :
  stdin w = [] →
  (configure_bitbucket_api w).1 = Ret tt →
  ∃ w', main a (S fuel) w = (Ret Finished, w')
        ∧ last (stdout w')
          = Some (Print [Lit (py "Unexpected exception: ");
                         ShowExn (Exn EOFError (py "EOF when reading a line"))])
        ∧ requests w' = requests w
        ∧ files w' = files w.
Proof.
  intros Hin Hcfg. unfold main, try_except, print, modify. rewrite !bind_run. simpl.
  set (w1 := set_stdout _ (set_stdout _ w)).
  assert (Hw1 : (configure_bitbucket_api w1).1 = Ret tt).
  { rewrite <- Hcfg.
    exact (framed_outcome configure_bitbucket_api (stdout w1) w framed_configure). }
  pose proof (configure_keeps w1) as Hkeep.
  destruct (configure_bitbucket_api w1) as [[[]|e] w2]; [|done]. simpl in Hkeep.
  injection Hkeep as _ _ _ Hfiles _ Hstdin _ Hreq.
  rewrite bind_run. unfold menu_turn. rewrite bind_run. unfold input.
  rewrite Hstdin, Hin. simpl. eexists. split; [reflexivity|]. simpl.
  rewrite last_snoc. by rewrite Hreq, Hfiles.
Qed.

Lemma end_of_input_ends_the_program_witness :
  (main None 1 (fresh_world config_files [])).1 = Ret Finished
  ∧ last (stdout (main None 1 (fresh_world config_files [])).2)
    = Some (Print [Lit (py "Unexpected exception: ");
                   ShowExn (Exn EOFError (py "EOF when reading a line"))]).
Proof.
  assert (Hcfg : (configure_bitbucket_api (fresh_world config_files [])).1 = Ret tt)
    by reflexivity.
  destruct (end_of_input_ends_the_program None 0 (fresh_world config_files [])
              eq_refl Hcfg) as (w' & Hrun & Hlast & _).
  rewrite Hrun. by split.
Defined.

(** X18.  The batch is complete: over a listing of well-formed records,
    every record whose name is not in the protected list and whose default
    flag is false has its delete request sent, whatever the service
    answered to the requests before it. *)
Theorem delete_branches_deletes_every_unprotected_branch
    {R} `{!Collaborators R} (w : World R) cl v items r1 b n f :
  BITBUCKET_WRAPPER w = Some cl →
  respond cl (listing_request (PROJECT_KEY w) (REPOSITORY_SLUG w)) (remote w)
    = (Ret v, r1) →
  py_iter v = Ret items →
  Forall (λ b, well_formed b = true) items →
  b ∈ items →
  display_name b = Ret n → py_in n (protected_names w) = false →
  default_flag b = Ret f → py_bool f = false →
  delete_request (PROJECT_KEY w) (REPOSITORY_SLUG w) n
  ∈ requests (delete_branches w).2.
Proof.
  intros Hcl Hres Hiter Hwf Hb Hn Hin Hf Hflag.
  destruct (delete_branches_exact w cl v items r1 Hcl Hres Hiter Hwf)
    as (out & Hrun & _).
  rewrite Hrun. simpl. apply elem_of_app. right. apply list_elem_of_further.
  apply list_elem_of_fmap_2. unfold names_of. apply list_elem_of_omap.
  exists b. split; [|by rewrite Hn].
  apply list_elem_of_In, List.filter_In. split; [by apply list_elem_of_In|].
  unfold deletable. by rewrite Hn, Hf, Hin, Hflag.
Qed.

Lemma delete_branches_deletes_every_unprotected_branch_witness :
  delete_request (Some (py "ISPJ")) (Some (py "repo1")) (VStr (py "b"))
  ∈ requests (delete_branches demo_w).2.
Proof.
  assert (Hwf : Forall (λ b, well_formed b = true) demo_items)
    by repeat constructor.
  assert (Hres : respond demo_client
                   (listing_request (PROJECT_KEY demo_w) (REPOSITORY_SLUG demo_w))
                   (remote demo_w) = (Ret (VList demo_items), demo_repo))
    by reflexivity.
  assert (Hb : branch_record "b" false ∈ demo_items).
  { repeat (first [apply list_elem_of_here | apply list_elem_of_further]). }
  exact (delete_branches_deletes_every_unprotected_branch demo_w demo_client
           (VList demo_items) demo_items demo_repo (branch_record "b" false)
           (VStr (py "b")) (VBool false)
           eq_refl Hres eq_refl Hwf Hb eq_refl eq_refl eq_refl eq_refl).
Defined.

(** X19.  After option 0, 1 or 2 the next line the operator types is the
    value, whatever it looks like: the turn stores it trimmed in the global
    of that option, consumes both lines, sends no request, and the loop
    goes on.  A line "8" typed as a project key deletes nothing. *)
Theorem setter_options_take_the_next_line
    {R} `{!Collaborators R} (w : World R) (line value : pystr) (rest : list pystr) :
  stdin w = line :: value :: rest →
  strip line ∈ [py "0"; py "1"; py "2"] →
  (menu_turn w).1 = Ret true
  ∧ stdin (menu_turn w).2 = rest
  ∧ requests (menu_turn w).2 = requests w
  ∧ files (menu_turn w).2 = files w
  ∧ (strip line = py "0" → FILENAME (menu_turn w).2 = Some (strip value))
  ∧ (strip line = py "1" → PROJECT_KEY (menu_turn w).2 = Some (strip value))
  ∧ (strip line = py "2" → REPOSITORY_SLUG (menu_turn w).2 = Some (strip value)).
Proof.
  intros Hin Hopt. unfold menu_turn.
  rewrite bind_run, (input_run MENU line (value :: rest) w Hin).
  set (w1 := set_stdin _ _). unfold dispatch.
  repeat (apply elem_of_cons in Hopt as [Hopt|Hopt]); [..|by apply elem_of_nil in Hopt];
    rewrite Hopt; repeat (case_decide; [try discriminate|try done]);
    repeat split; done.
Qed.

Lemma setter_options_take_the_next_line_witness :
  (menu_turn (demo_typed [py "1"; py " 8 "; py "q"])).1 = Ret true
  ∧ stdin (menu_turn (demo_typed [py "1"; py " 8 "; py "q"])).2 = [py "q"]
  ∧ requests (menu_turn (demo_typed [py "1"; py " 8 "; py "q"])).2 = []
  ∧ PROJECT_KEY (menu_turn (demo_typed [py "1"; py " 8 "; py "q"])).2 = Some (py "8").
Proof.
  assert (Hopt : strip (py "1") ∈ [py "0"; py "1"; py "2"]).
  { apply list_elem_of_further, list_elem_of_here. }
  destruct (setter_options_take_the_next_line
              (demo_typed [py "1"; py " 8 "; py "q"]) (py "1") (py " 8 ") [py "q"]
              eq_refl Hopt) as (Hret & Hstdin & Hreq & _ & _ & Hkey & _).
  split; [exact Hret|]. split; [exact Hstdin|]. split; [exact Hreq|].
  exact (Hkey eq_refl).
Defined.
